(** * Bookstore multi-agent simulation: a shallow embedding of bookstore_bms.py

    The script builds an ontology of three books, registers two SWRL rules,
    runs a Mesa model of buyers and restockers for fifteen ticks, reports the
    final inventory and finally calls the reasoner.  The embedding keeps the
    script's names.  Python's mutable state is threaded explicitly through a
    state-and-exception monad whose exceptions keep the state reached so far,
    as a Python exception does. *)

From Stdlib Require Import ZArith String Floats List Permutation Lia.
From stdpp Require Import base option list strings.
Import ListNotations.

Set Warnings "-inexact-float".

(** ** 1. Ontology: data model *)

(** A [Book] individual with its two functional data properties. *)
Record Book := mkBook {
  name : string;
  availableQuantity : Z;
  hasPrice : float
}.

Definition set_availableQuantity (q : Z) (b : Book) : Book :=
  mkBook (name b) q (hasPrice b).

Definition book1 : Book := mkBook "b1" 5 12.5.
Definition book2 : Book := mkBook "b2" 5 15.0.
Definition book3 : Book := mkBook "b3" 5 9.99.

(** [books = [book1, book2, book3]] *)
Definition initial_books : list Book := [book1; book2; book3].

(** The two Mesa agent classes.  A [CustomerAgent] owns the list
    [self.purchased]; an [EmployeeAgent] owns nothing. *)
Inductive AgentKind :=
| CustomerAgent (purchased : list string)
| EmployeeAgent.

Record Agent := mkAgent {
  unique_id : nat;
  kind : AgentKind
}.

(** Exceptions that the script can meet.  All of them are subclasses of
    Python's [Exception]. *)
Inductive Exn :=
| IndexError
| DuplicateAgent (uid : nat)
| LibraryError (msg : string).

(** A SWRL rule object.  [imp_rule] is [Some text] exactly when
    [set_as_rule text] has returned normally on the object. *)
Record Imp := mkImp { imp_rule : option string }.

(** What the script prints or writes: [Line] for a constant message, one
    constructor for each formatted message and each file written. *)
Inductive Event :=
| Line (text : string)
| SwrlNotAdded (which : string) (e : Exn)
| StepRunning (i total : nat)
| InventoryLine (n : string) (qty : Z) (price : float)
| PurchaseLine (uid : nat) (purchased : list string)
| OntologySaved (file : string) (bs : list Book) (ps : list (string * string))
| PlotSaved (file : string) (names : list string) (quantities : list Z)
| ReasonerNotRun (e : Exn).

(** ** 2. The libraries the script calls *)

(** Python's pseudo-random sources, seen through the two operations the run
    uses: [random.choice] draws an index below the length of its argument and
    the scheduler's [shuffle] permutes the agent keys.  [Rng] is the joint
    state of the generators. *)
Class RandomSource (Rng : Type) := {
  randbelow : Rng -> nat -> nat * Rng;
  shuffle : Rng -> list nat -> list nat * Rng;
  randbelow_lt : forall g n, 0 < n -> fst (randbelow g n) < n;
  shuffle_perm : forall g l, Permutation l (fst (shuffle g l))
}.

(** Verdicts of owlready2 on this run: whether [set_as_rule] raises on a rule
    text, and whether [sync_reasoner] raises on the final catalog. *)
Record Env := mkEnv {
  set_as_rule_raises : string -> option Exn;
  sync_reasoner_raises : list Book -> option Exn
}.

Section Simulation.

Context {Rng : Type} {RS : RandomSource Rng}.

(** ** 3. Program state *)

(** [books] is the list shared by the global [books] and [model.books];
    [customers], [employees] and [purchases] are the individuals of the
    ontology classes [Customer] and [Employee] and the tuples of the object
    property [purchases]; [agents] is the scheduler's dictionary in insertion
    order and [steps] its tick counter.  [acted] is a history variable: the
    schedule positions of the agents whose [step] has been invoked, oldest
    first. *)
Record World := mkWorld {
  books : list Book;
  customers : list string;
  employees : list string;
  purchases : list (string * string);
  rules : list Imp;
  agents : list Agent;
  steps : nat;
  acted : list nat;
  rng : Rng;
  stdout : list Event
}.

Definition set_books (bs : list Book) (w : World) : World :=
  mkWorld bs (customers w) (employees w) (purchases w) (rules w)
          (agents w) (steps w) (acted w) (rng w) (stdout w).

Definition set_rules (rs : list Imp) (w : World) : World :=
  mkWorld (books w) (customers w) (employees w) (purchases w) rs
          (agents w) (steps w) (acted w) (rng w) (stdout w).

Definition set_agents (ags : list Agent) (w : World) : World :=
  mkWorld (books w) (customers w) (employees w) (purchases w) (rules w)
          ags (steps w) (acted w) (rng w) (stdout w).

Definition set_steps (n : nat) (w : World) : World :=
  mkWorld (books w) (customers w) (employees w) (purchases w) (rules w)
          (agents w) n (acted w) (rng w) (stdout w).

Definition set_acted (l : list nat) (w : World) : World :=
  mkWorld (books w) (customers w) (employees w) (purchases w) (rules w)
          (agents w) (steps w) l (rng w) (stdout w).

Definition set_rng (g : Rng) (w : World) : World :=
  mkWorld (books w) (customers w) (employees w) (purchases w) (rules w)
          (agents w) (steps w) (acted w) g (stdout w).

Definition set_stdout (out : list Event) (w : World) : World :=
  mkWorld (books w) (customers w) (employees w) (purchases w) (rules w)
          (agents w) (steps w) (acted w) (rng w) out.

(** The state after the ontology section of the script: three books, no
    [Customer] or [Employee] individual, no [purchases] tuple. *)
Definition initial_world (seed : Rng) : World :=
  mkWorld initial_books [] [] [] [] [] 0 [] seed [].

(** ** 4. State and exceptions *)

Inductive Res (A : Type) :=
| Ok (a : A) (w : World)
| Raise (e : Exn) (w : World).

Arguments Ok {A} a w.
Arguments Raise {A} e w.

Definition state_of {A} (r : Res A) : World :=
  match r with Ok _ w => w | Raise _ w => w end.

Definition succeeded {A} (r : Res A) : bool :=
  match r with Ok _ _ => true | Raise _ _ => false end.

Definition M (A : Type) : Type := World -> Res A.

Definition ret {A} (a : A) : M A := fun w => Ok a w.

Definition bind {A B} (m : M A) (k : A -> M B) : M B :=
  fun w => match m w with
           | Ok a w' => k a w'
           | Raise e w' => Raise e w'
           end.

Definition raise {A} (e : Exn) : M A := fun w => Raise e w.

Definition get : M World := fun w => Ok w w.

Definition modify (f : World -> World) : M unit := fun w => Ok tt (f w).

(** [try: body except Exception as e: handler e] *)
Definition try_except {A} (body : M A) (handler : Exn -> M A) : M A :=
  fun w => match body w with
           | Ok a w' => Ok a w'
           | Raise e w' => handler e w'
           end.

Notation "x <- c ;; k" := (bind c (fun x => k))
  (at level 100, c at next level, right associativity).
Notation "c ;; k" := (bind c (fun _ => k))
  (at level 100, right associativity).

(** [for x in l: body x] *)
Fixpoint for_each {A} (l : list A) (body : A -> M unit) : M unit :=
  match l with
  | [] => ret tt
  | x :: l' => body x ;; for_each l' body
  end.

Definition print (e : Event) : M unit :=
  modify (fun w => set_stdout (stdout w ++ [e]) w).

(** [random.choice(seq)]: the element at a drawn index, with that index;
    [IndexError] on an empty sequence. *)
Definition random_choice {A} (seq : list A) : M (nat * A) :=
  fun w =>
    match seq with
    | [] => Raise IndexError w
    | _ :: _ =>
        let d := randbelow (rng w) (length seq) in
        match seq !! fst d with
        | Some x => Ok (fst d, x) (set_rng (snd d) w)
        | None => Raise IndexError (set_rng (snd d) w)
        end
    end.

(** ** 5. Mesa agents *)

(** [self.purchased.append(n)] *)
Definition record_purchase (n : string) (a : Agent) : Agent :=
  match kind a with
  | CustomerAgent p => mkAgent (unique_id a) (CustomerAgent (p ++ [n]))
  | EmployeeAgent => a
  end.

(** [CustomerAgent.step]; [self] is the agent's position in the schedule. *)
Definition CustomerAgent_step (self : nat) : M unit :=
  w <- get ;;
  c <- random_choice (books w) ;;
  let book := snd c in
  if (0 <? availableQuantity book)%Z then
    modify (fun w =>
      set_agents (alter (record_purchase (name book)) self (agents w))
        (set_books
           (<[fst c := set_availableQuantity (availableQuantity book - 1) book]>
              (books w)) w))
  else ret tt.

(** The body of the loop of [EmployeeAgent.step] on one book. *)
Definition restock (b : Book) : Book :=
  if (availableQuantity b <? 2)%Z
  then set_availableQuantity (availableQuantity b + 3) b
  else b.

(** [EmployeeAgent.step] *)
Definition EmployeeAgent_step : M unit :=
  modify (fun w => set_books (map restock (books w)) w).

(** [agent.step()] on the agent at position [self], by its class. *)
Definition agent_step (self : nat) (a : Agent) : M unit :=
  modify (fun w => set_acted (acted w ++ [self]) w) ;;
  match kind a with
  | CustomerAgent _ => CustomerAgent_step self
  | EmployeeAgent => EmployeeAgent_step
  end.

(** ** 6. Mesa model and scheduler *)

(** Modelled from the spec: Mesa's scheduler is a library outside the
    repository.  [schedule.add(agent)] keeps the agents in a dictionary keyed
    by [unique_id], in insertion order: identity is the id, and an entity is
    never duplicated.  What [add] does with a key that is already there is
    stated neither by the script nor by the specification; the model follows
    Mesa, which refuses the key with an exception.  The script as shipped,
    and every model of at most 100 buyers, only adds fresh keys. *)
Definition schedule_add (a : Agent) : M unit :=
  fun w =>
    if decide (unique_id a ∈ map unique_id (agents w))
    then Raise (DuplicateAgent (unique_id a)) w
    else Ok tt (set_agents (agents w ++ [a]) w).

(** [BookstoreModel.__init__] *)
Definition BookstoreModel_init (num_customers num_employees : nat) : M unit :=
  modify (fun w => set_steps 0 (set_agents [] w)) ;;
  for_each (seq 0 num_customers)
    (fun i => schedule_add (mkAgent i (CustomerAgent []))) ;;
  for_each (seq 0 num_employees)
    (fun i => schedule_add (mkAgent (i + 100) EmployeeAgent)).

(** The dictionary access [self._agents[key]], with the position found. *)
Definition lookup_agent (key : nat) (ags : list Agent) : option (nat * Agent) :=
  list_find (fun a => unique_id a = key) ags.

(** Modelled from the spec: [RandomActivation.step], of the same library.
    One call is one tick: it draws a permutation of the keys, steps the agent
    that each key names, one after the other in that order, and counts the
    tick. *)
Definition RandomActivation_step : M unit :=
  w <- get ;;
  let d := shuffle (rng w) (map unique_id (agents w)) in
  modify (set_rng (snd d)) ;;
  for_each (fst d)
    (fun key =>
       w <- get ;;
       match lookup_agent key (agents w) with
       | Some (self, a) => agent_step self a
       | None => ret tt
       end) ;;
  modify (fun w => set_steps (S (steps w)) w).

(** [BookstoreModel.step] *)
Definition BookstoreModel_step : M unit := RandomActivation_step.

(** [for i in range(ticks): print(...); model.step()] *)
Definition run_simulation (ticks : nat) : M unit :=
  for_each (seq 0 ticks)
    (fun i => print (StepRunning (i + 1) ticks) ;; BookstoreModel_step).

(** ** 7. SWRL rules and the reasoner *)

Definition rule1_text : string :=
"
        Customer(?c), Book(?b), purchases(?c, ?b), availableQuantity(?b, ?q) 
        -> availableQuantity(?b, ?q - 1)
    ".

Definition rule2_text : string :=
"
        Employee(?e), Book(?b), availableQuantity(?b, ?q), swrlb:lessThan(?q, 2)
        -> availableQuantity(?b, ?q + 3)
    ".

(** [Imp()]: a fresh rule object, which the ontology holds from its
    creation on; it is returned by its position. *)
Definition new_Imp : M nat :=
  fun w => Ok (length (rules w)) (set_rules (rules w ++ [mkImp None]) w).

(** [rule.set_as_rule(text)] *)
Definition set_as_rule (env : Env) (self : nat) (text : string) : M unit :=
  fun w =>
    match set_as_rule_raises env text with
    | Some e => Raise e w
    | None => Ok tt (set_rules (<[self := mkImp (Some text)]> (rules w)) w)
    end.

(** One of the two [try: ... except Exception as e: ...] blocks of section 2
    of the script. *)
Definition add_rule (env : Env) (which added text : string) : M unit :=
  try_except
    (r <- new_Imp ;;
     set_as_rule env r text ;;
     print (Line added))
    (fun e => print (SwrlNotAdded which e)).

(** [sync_reasoner()].  The reasoner classifies individuals and leaves the
    data properties of the books alone; a call that raises has changed
    nothing.  Nothing reads the ontology after the call. *)
Definition sync_reasoner (env : Env) : M unit :=
  fun w =>
    match sync_reasoner_raises env (books w) with
    | Some e => Raise e w
    | None => Ok tt w
    end.

(** Section 7 of the script. *)
Definition apply_reasoner (env : Env) : M unit :=
  try_except
    (sync_reasoner env ;;
     print (Line "[Reasoner] Reasoner finished."))
    (fun e => print (ReasonerNotRun e)).

(** ** 8. Reporting *)

Definition show_customer (a : Agent) : M unit :=
  match kind a with
  | CustomerAgent p => print (PurchaseLine (unique_id a) p)
  | EmployeeAgent => ret tt
  end.

(** Section 6 of the script: inventory, purchases, saved ontology, plot. *)
Definition show_results : M unit :=
  print (Line "
Final inventory (ontology):") ;;
  w <- get ;;
  for_each (books w)
    (fun b => print (InventoryLine (name b) (availableQuantity b) (hasPrice b))) ;;
  print (Line "
Customer purchases (ontology):") ;;
  for_each (agents w) show_customer ;;
  print (OntologySaved "bookstore_result.owl" (books w) (purchases w)) ;;
  print (Line "
Ontology saved to 'bookstore_result.owl'") ;;
  print (PlotSaved "sales.png" (map name (books w))
           (map availableQuantity (books w))) ;;
  print (Line "Sales plot saved to 'sales.png'").

(** The lines and files that [show_results] produces in a state. *)
Definition customer_line (a : Agent) : option Event :=
  match kind a with
  | CustomerAgent p => Some (PurchaseLine (unique_id a) p)
  | EmployeeAgent => None
  end.

Definition report (w : World) : list Event :=
  [Line "
Final inventory (ontology):"] ++
  map (fun b => InventoryLine (name b) (availableQuantity b) (hasPrice b))
      (books w) ++
  [Line "
Customer purchases (ontology):"] ++
  omap customer_line (agents w) ++
  [OntologySaved "bookstore_result.owl" (books w) (purchases w);
   Line "
Ontology saved to 'bookstore_result.owl'";
   PlotSaved "sales.png" (map name (books w)) (map availableQuantity (books w));
   Line "Sales plot saved to 'sales.png'"].

(** ** 9. The script *)

(** Sections 2 to 6 of the script for a model of [num_customers] buyers and
    [num_employees] restockers run for [ticks] ticks. *)
Definition simulate_and_report (env : Env)
    (num_customers num_employees ticks : nat) : M unit :=
  add_rule env "purchase" "[SWRL] Purchase rule added successfully" rule1_text ;;
  add_rule env "restock" "[SWRL] Restock rule added successfully" rule2_text ;;
  print (Line "[Setup] Starting Bookstore MAS simulation.") ;;
  BookstoreModel_init num_customers num_employees ;;
  run_simulation ticks ;;
  print (Line "[Model] Simulation finished.") ;;
  show_results.

(** The whole script: sections 2 to 6, then the reasoner of section 7. *)
Definition script (env : Env) (num_customers num_employees ticks : nat) : M unit :=
  simulate_and_report env num_customers num_employees ticks ;;
  apply_reasoner env.

(** The script as shipped: 8 buyers, 2 restockers, 15 ticks. *)
Definition main (env : Env) : M unit := script env 8 2 15.

(** What a run hands to its readers: the catalog and the purchase logs. *)
Definition final_catalog (w : World) : list (string * Z * float) :=
  map (fun b => (name b, availableQuantity b, hasPrice b)) (books w).

Definition purchase_log (a : Agent) : option (nat * list string) :=
  match kind a with
  | CustomerAgent p => Some (unique_id a, p)
  | EmployeeAgent => None
  end.

Definition purchase_logs (w : World) : list (nat * list string) :=
  omap purchase_log (agents w).

(** ** 10. The purchase rule as an engine would run it *)

(** Modelled from the spec: the engine that evaluates the registered rules is
    no part of the script, which only hands the rule text to the ontology
    library.  The model follows section 4.2 of the specification: a binding
    of rule 1 is a tuple of [purchases] that joins a [Customer] individual
    to a [Book] individual, with one binding for each tuple of the log, and
    the action runs once for each binding, replacing the book's current
    quantity [q] by [q - 1]. *)
Definition is_rule1_binding (w : World) (t : string * string) : Prop :=
  fst t ∈ customers w /\ snd t ∈ map name (books w).

#[local] Instance is_rule1_binding_dec (w : World) (t : string * string) :
  Decision (is_rule1_binding w t).
Proof. unfold is_rule1_binding. apply _. Defined.

Definition rule1_bindings (w : World) : list (string * string) :=
  filter (is_rule1_binding w) (purchases w).

(** The bindings of rule 1 that come from the log entries of customer [c]
    for the book named [n]. *)
Definition rule1_bindings_for (c n : string) (w : World) : list (string * string) :=
  filter (fun t => t = (c, n)) (rule1_bindings w).

Definition decrement (b : Book) : Book :=
  set_availableQuantity (availableQuantity b - 1) b.

(** The action of rule 1 on one binding. *)
Definition fire_rule1 (t : string * string) (bs : list Book) : list Book :=
  map (fun b => if decide (name b = snd t) then decrement b else b) bs.

(** The action of rule 1 once for each binding of a list. *)
Definition apply_rule1 (bindings : list (string * string)) (w : World) : World :=
  set_books (fold_left (fun bs t => fire_rule1 t bs) bindings (books w)) w.

(** One evaluation pass of rule 1: collect the bindings, then apply. *)
Definition rule1_pass (w : World) : World :=
  apply_rule1 (rule1_bindings w) w.

(** The number of entries of the log [purchases] for customer [c] and the
    book named [n]. *)
Definition log_entries (c n : string) (w : World) : nat :=
  count_occ (fun x y : string * string => decide (x = y)) (purchases w) (c, n).

(** No tuple of [purchases], and no [Customer] individual to own one. *)
Definition no_purchase_asserted (w : World) : Prop :=
  purchases w = [] /\ customers w = [].


(** ** 11. Predicates of the statements *)

(** [I] holds after [m], whether [m] returns or raises. *)
Definition invariant {A} (I : World -> Prop) (m : M A) : Prop :=
  forall w, I w -> I (state_of (m w)).

Definition quantities_nonneg (w : World) : Prop :=
  Forall (fun b => (0 <= availableQuantity b)%Z) (books w).

Definition price_nonneg (b : Book) : Prop :=
  PrimFloat.leb 0 (hasPrice b) = true.

Definition is_customer (a : Agent) : bool :=
  match kind a with CustomerAgent _ => true | EmployeeAgent => false end.

(** Everything of [w0] but the quantities and the buyers' lists, the
    scheduler's counter, the generator and the output is the same in [w]. *)
Definition same_entities (w0 w : World) : Prop :=
  map name (books w) = map name (books w0) /\
  map hasPrice (books w) = map hasPrice (books w0) /\
  customers w = customers w0 /\
  employees w = employees w0 /\
  purchases w = purchases w0 /\
  rules w = rules w0 /\
  map unique_id (agents w) = map unique_id (agents w0) /\
  map is_customer (agents w) = map is_customer (agents w0).

(** [I] reads nothing but the books and the ontology's relations. *)
Definition catalog_only (I : World -> Prop) : Prop :=
  forall w w',
    books w' = books w -> customers w' = customers w ->
    employees w' = employees w -> purchases w' = purchases w ->
    I w -> I w'.

(** [I] reads nothing but the books, the relations, the rules and the
    agents. *)
Definition entities_only (I : World -> Prop) : Prop :=
  forall w w',
    books w' = books w -> customers w' = customers w ->
    employees w' = employees w -> purchases w' = purchases w ->
    rules w' = rules w -> agents w' = agents w ->
    I w -> I w'.

(** The books keep their names and prices and the relations their tuples. *)
Definition same_catalog (w0 w : World) : Prop :=
  map name (books w) = map name (books w0) /\
  map hasPrice (books w) = map hasPrice (books w0) /\
  customers w = customers w0 /\
  employees w = employees w0 /\
  purchases w = purchases w0.


(** The part of the state that the simulation reads. *)
Definition core (w : World) :=
  (books w, customers w, employees w, purchases w, agents w, steps w,
   acted w, rng w).

(** Two runs that agree on their outcome and on the core of their states. *)
Definition agree {A} (r1 r2 : Res A) : Prop :=
  match r1, r2 with
  | Ok a1 w1, Ok a2 w2 => a1 = a2 /\ core w1 = core w2
  | Raise e1 w1, Raise e2 w2 => e1 = e2 /\ core w1 = core w2
  | _, _ => False
  end.

(** [m1] and [m2] agree whenever they start from states with the same
    core. *)
Definition related {A} (m1 m2 : M A) : Prop :=
  forall w1 w2, core w1 = core w2 -> agree (m1 w1) (m2 w2).


(** The schedule position that a key names. *)
Definition position_of (ids : list nat) (key : nat) : nat :=
  from_option fst 0 (list_find (fun k => k = key) ids).

(** The agents that [BookstoreModel.__init__] schedules. *)
Definition initial_agents (num_customers num_employees : nat) : list Agent :=
  map (fun i => mkAgent i (CustomerAgent [])) (seq 0 num_customers) ++
  map (fun i => mkAgent (i + 100) EmployeeAgent) (seq 0 num_employees).

(** The outcomes of [CustomerAgent.step] in a state [w]: a purchase, a
    draw of a book that is out of stock, or a draw that finds no book. *)
Inductive CustomerAgent_outcome (self : nat) (w : World) : Res unit -> Prop :=
| bought (g : Rng) (i : nat) (b : Book) :
    books w !! i = Some b ->
    (0 < availableQuantity b)%Z ->
    CustomerAgent_outcome self w
      (Ok tt (set_agents (alter (record_purchase (name b)) self (agents w))
                (set_books (<[i := decrement b]> (books w)) (set_rng g w))))
| out_of_stock (g : Rng) (i : nat) (b : Book) :
    books w !! i = Some b ->
    (availableQuantity b <= 0)%Z ->
    CustomerAgent_outcome self w (Ok tt (set_rng g w))
| no_choice (g : Rng) :
    CustomerAgent_outcome self w (Raise IndexError (set_rng g w)).

(** ** 12. Stock, sales and the history of the schedule *)

(** The purchase list of an agent; a restocker has none. *)
Definition purchased_of (a : Agent) : list string :=
  match kind a with
  | CustomerAgent p => p
  | EmployeeAgent => []
  end.

Definition total (l : list Z) : Z := foldr Z.add 0%Z l.

(** The units in stock, over all books. *)
Definition stock (w : World) : Z := total (map availableQuantity (books w)).

(** The purchases recorded, over all agents. *)
Definition sold (w : World) : nat :=
  length (concat (map purchased_of (agents w))).

(** A book that a restocker refills. *)
Definition is_low (b : Book) : bool := (availableQuantity b <? 2)%Z.

(** [I] reads nothing but the books, the relations, the agents and the
    history of acts. *)
Definition ledger_only (I : World -> Prop) : Prop :=
  forall w w',
    books w' = books w -> customers w' = customers w ->
    employees w' = employees w -> purchases w' = purchases w ->
    agents w' = agents w -> acted w' = acted w ->
    I w -> I w'.

(** A state whose model has just been built on the ontology of [w0]: same
    books, same history, and no agent has bought anything yet. *)
Definition built_from (w0 w : World) : Prop :=
  books w = books w0 /\ customers w = customers w0 /\
  employees w = employees w0 /\ purchases w = purchases w0 /\
  acted w = acted w0 /\
  Forall (fun a => purchased_of a = []) (agents w).

Definition quantities_at_most (B : Z) (w : World) : Prop :=
  Forall (fun b => (availableQuantity b <= B)%Z) (books w).

(** Every agent of [w0] is at its position in [w], with its key, and its
    purchase list has only grown at the end. *)
Definition logs_extend (w0 w : World) : Prop :=
  forall p a0,
    agents w0 !! p = Some a0 ->
    exists a, agents w !! p = Some a /\ unique_id a = unique_id a0 /\
              purchased_of a0 `prefix_of` purchased_of a.

(** Every recorded purchase names a book of the catalog. *)
Definition logs_in_catalog (w : World) : Prop :=
  forall p a n,
    agents w !! p = Some a -> n ∈ purchased_of a -> n ∈ map name (books w).

(** No agent has recorded more purchases than it has acted. *)
Definition logs_within_acts (w : World) : Prop :=
  forall p a,
    agents w !! p = Some a ->
    length (purchased_of a) <= count_occ Nat.eq_dec (acted w) p.

(** Stock and sales add up to [c] and what the restockers brought, three
    units at a time. *)
Definition accounts (c : Z) (w : World) : Prop :=
  exists k : nat, (stock w + Z.of_nat (sold w) = c + 3 * Z.of_nat k)%Z.

(** What a registration block prints and what it leaves in the ontology. *)
Definition rule_line (env : Env) (which added text : string) : Event :=
  match set_as_rule_raises env text with
  | None => Line added
  | Some e => SwrlNotAdded which e
  end.

Definition rule_object (env : Env) (text : string) : Imp :=
  match set_as_rule_raises env text with
  | None => mkImp (Some text)
  | Some _ => mkImp None
  end.

(** The last line of the script. *)
Definition reasoner_line (env : Env) (w : World) : Event :=
  match sync_reasoner_raises env (books w) with
  | None => Line "[Reasoner] Reasoner finished."
  | Some e => ReasonerNotRun e
  end.


(** The body of the loop of [RandomActivation.step]: the act of the agent
    that a key names, if any. *)
Definition activate (key : nat) : M unit :=
  w <- get ;;
  match lookup_agent key (agents w) with
  | Some (self, a) => agent_step self a
  | None => ret tt
  end.

(** What a tick keeps while it steps its agents. *)
Definition tick_frame (w0 w : World) : Prop :=
  map unique_id (agents w) = map unique_id (agents w0) /\
  map is_customer (agents w) = map is_customer (agents w0) /\
  length (books w) = length (books w0) /\
  (quantities_nonneg w0 -> quantities_nonneg w).


(** * Properties *)

(** ** Invariants through the monad *)

Lemma invariant_ret {A} (I : World -> Prop) (a : A) : invariant I (ret a).
Proof. intros w Hw. exact Hw. Qed.

Lemma invariant_get (I : World -> Prop) : invariant I get.
Proof. intros w Hw. exact Hw. Qed.

Lemma invariant_raise {A} (I : World -> Prop) (e : Exn) :
  invariant I (raise (A := A) e).
Proof. intros w Hw. exact Hw. Qed.

Lemma invariant_modify (I : World -> Prop) (f : World -> World) :
  (forall w, I w -> I (f w)) -> invariant I (modify f).
Proof. intros Hf w Hw. apply Hf, Hw. Qed.

Lemma invariant_bind {A B} (I : World -> Prop) (m : M A) (k : A -> M B) :
  invariant I m -> (forall a, invariant I (k a)) -> invariant I (bind m k).
Proof.
  intros Hm Hk w Hw. unfold bind.
  specialize (Hm w Hw). destruct (m w) as [a w'|e w']; cbn in *.
  - apply Hk, Hm.
  - exact Hm.
Qed.

Lemma invariant_try_except {A} (I : World -> Prop) (m : M A) (h : Exn -> M A) :
  invariant I m -> (forall e, invariant I (h e)) -> invariant I (try_except m h).
Proof.
  intros Hm Hh w Hw. unfold try_except.
  specialize (Hm w Hw). destruct (m w) as [a w'|e w']; cbn in *.
  - exact Hm.
  - apply Hh, Hm.
Qed.

Lemma invariant_for_each {A} (I : World -> Prop) (l : list A) (body : A -> M unit) :
  (forall x, invariant I (body x)) -> invariant I (for_each l body).
Proof.
  intros Hbody. induction l as [|x l IH]; cbn [for_each].
  - apply invariant_ret.
  - apply invariant_bind; [apply Hbody | intros _; exact IH].
Qed.

(** A loop whose body returns on every element returns, and an invariant
    indexed by the elements already visited follows it. *)
Lemma for_each_ok {A} (I : list A -> World -> Prop) (body : A -> M unit) (l : list A) :
  forall visited w,
    (forall pre x w1, x ∈ l -> I pre w1 ->
       exists w2, body x w1 = Ok tt w2 /\ I (pre ++ [x]) w2) ->
    I visited w ->
    exists w', for_each l body w = Ok tt w' /\ I (visited ++ l) w'.
Proof.
  induction l as [|x l IH]; intros visited w Hbody Hw.
  - exists w. rewrite app_nil_r. split; [reflexivity | exact Hw].
  - destruct (Hbody visited x w) as (w2 & Hx & Hw2); [left | exact Hw |].
    destruct (IH (visited ++ [x]) w2) as (w' & Hl & Hw'); [| exact Hw2 |].
    { intros pre y w1 Hy. apply Hbody. right. exact Hy. }
    exists w'. split.
    + cbn [for_each]. unfold bind. rewrite Hx. exact Hl.
    + rewrite <- app_assoc in Hw'. exact Hw'.
Qed.

Lemma print_spec (e : Event) (w : World) :
  print e w = Ok tt (set_stdout (stdout w ++ [e]) w).
Proof. reflexivity. Qed.

(** ** One act of an agent, in all its outcomes *)

Lemma CustomerAgent_step_outcome (self : nat) (w : World) :
  CustomerAgent_outcome self w (CustomerAgent_step self w).
Proof.
  unfold CustomerAgent_step, bind, get, random_choice.
  destruct (books w) as [|b0 bs] eqn:Hbs.
  - replace w with (set_rng (rng w) w) at 2 by (destruct w; reflexivity).
    apply no_choice.
  - rewrite <- Hbs.
    set (d := randbelow (rng w) (length (books w))).
    destruct (books w !! fst d) as [b|] eqn:Hb; [| apply no_choice].
    cbn [fst snd]. destruct (0 <? availableQuantity b)%Z eqn:Hq.
    + apply (bought self w (snd d) (fst d) b Hb). apply Z.ltb_lt, Hq.
    + apply (out_of_stock self w (snd d) (fst d) b Hb). apply Z.ltb_ge, Hq.
Qed.


Lemma map_alter_same {A B} (f : A -> B) (g : A -> A) (i : nat) (l : list A) :
  (forall x, f (g x) = f x) -> map f (alter g i l) = map f l.
Proof.
  intros Hfg. apply list_eq. intros j.
  rewrite !list_lookup_fmap, list_lookup_alter.
  destruct (decide (i = j)) as [->|]; [| reflexivity].
  destruct (l !! j); cbn; [rewrite Hfg |]; reflexivity.
Qed.

Lemma map_insert_same {A B} (f : A -> B) (i : nat) (x y : A) (l : list A) :
  l !! i = Some y -> f x = f y -> map f (<[i := x]> l) = map f l.
Proof.
  intros Hy Hxy. apply list_eq. intros j. rewrite !list_lookup_fmap.
  destruct (decide (i = j)) as [<-|Hij].
  - rewrite list_lookup_insert_eq by (eapply lookup_lt_Some; eassumption).
    rewrite Hy. cbn. rewrite Hxy. reflexivity.
  - rewrite list_lookup_insert_ne by assumption. reflexivity.
Qed.

Lemma record_purchase_unique_id (n : string) (a : Agent) :
  unique_id (record_purchase n a) = unique_id a.
Proof. unfold record_purchase. destruct (kind a); reflexivity. Qed.

Lemma record_purchase_is_customer (n : string) (a : Agent) :
  is_customer (record_purchase n a) = is_customer a.
Proof.
  unfold record_purchase, is_customer.
  destruct (kind a) eqn:Hk; cbn; [| rewrite Hk]; reflexivity.
Qed.

Lemma restock_name (b : Book) : name (restock b) = name b.
Proof. unfold restock. destruct (_ <? _)%Z; reflexivity. Qed.

Lemma restock_hasPrice (b : Book) : hasPrice (restock b) = hasPrice b.
Proof. unfold restock. destruct (_ <? _)%Z; reflexivity. Qed.

Lemma restock_nonneg (b : Book) :
  (0 <= availableQuantity b)%Z -> (0 <= availableQuantity (restock b))%Z.
Proof.
  intros H. unfold restock.
  destruct (availableQuantity b <? 2)%Z; cbn; lia.
Qed.

(** *** Quantities stay non-negative *)

Lemma CustomerAgent_step_nonneg (self : nat) :
  invariant quantities_nonneg (CustomerAgent_step self).
Proof.
  intros w Hw. unfold quantities_nonneg in *.
  destruct (CustomerAgent_step_outcome self w) as [g i b Hb Hq|g i b Hb Hq|g];
    cbn; try exact Hw.
  apply Forall_insert; [exact Hw |]. cbn. lia.
Qed.

Lemma EmployeeAgent_step_nonneg : invariant quantities_nonneg EmployeeAgent_step.
Proof.
  intros w Hw. unfold quantities_nonneg in *. cbn.
  apply Forall_fmap. eapply Forall_impl; [exact Hw |].
  intros b Hb. apply restock_nonneg, Hb.
Qed.

Lemma agent_step_nonneg (self : nat) (a : Agent) :
  invariant quantities_nonneg (agent_step self a).
Proof.
  unfold agent_step. apply invariant_bind.
  - apply invariant_modify. intros w Hw. exact Hw.
  - intros _. destruct (kind a).
    + apply CustomerAgent_step_nonneg.
    + apply EmployeeAgent_step_nonneg.
Qed.

(** *** Names, prices, relations, rules and the agents' identities stay *)

Lemma same_entities_refl (w : World) : same_entities w w.
Proof. repeat split. Qed.

Lemma CustomerAgent_step_same_entities (w0 : World) (self : nat) :
  invariant (same_entities w0) (CustomerAgent_step self).
Proof.
  intros w (Hn & Hp & Hc & He & Hpu & Hr & Hid & Hcl).
  destruct (CustomerAgent_step_outcome self w) as [g i b Hb Hq|g i b Hb Hq|g];
    cbn; unfold same_entities; cbn; try (repeat split; assumption).
  rewrite (map_insert_same name i (decrement b) b) by (reflexivity || assumption).
  rewrite (map_insert_same hasPrice i (decrement b) b) by (reflexivity || assumption).
  rewrite (map_alter_same unique_id) by apply record_purchase_unique_id.
  rewrite (map_alter_same is_customer) by apply record_purchase_is_customer.
  repeat split; assumption.
Qed.

Lemma EmployeeAgent_step_same_entities (w0 : World) :
  invariant (same_entities w0) EmployeeAgent_step.
Proof.
  intros w (Hn & Hp & Hc & He & Hpu & Hr & Hid & Hcl).
  unfold same_entities. cbn. rewrite !map_map.
  rewrite (map_ext _ name) by apply restock_name.
  rewrite (map_ext _ hasPrice) by apply restock_hasPrice.
  repeat split; assumption.
Qed.

Lemma agent_step_same_entities (w0 : World) (self : nat) (a : Agent) :
  invariant (same_entities w0) (agent_step self a).
Proof.
  unfold agent_step. apply invariant_bind.
  - apply invariant_modify. intros w Hw. exact Hw.
  - intros _. destruct (kind a).
    + apply CustomerAgent_step_same_entities.
    + apply EmployeeAgent_step_same_entities.
Qed.


(** ** Invariants of the scheduler and of the script *)

Ltac invariant_step :=
  lazymatch goal with
  | |- invariant _ (ret _) => apply invariant_ret
  | |- invariant _ get => apply invariant_get
  | |- invariant _ (raise _) => apply invariant_raise
  | |- invariant _ (bind _ _) => apply invariant_bind; [| intros ?]
  | |- invariant _ (try_except _ _) => apply invariant_try_except; [| intros ?]
  | |- invariant _ (for_each _ _) => apply invariant_for_each; intros ?
  | |- invariant _ (modify _) => apply invariant_modify; intros ? ?
  | |- invariant _ (print _) => unfold print
  | |- invariant _ _ => progress cbv beta zeta
  end.

Ltac invariant_steps := repeat invariant_step.

Lemma catalog_only_entities_only (I : World -> Prop) :
  catalog_only I -> entities_only I.
Proof. intros H w w' Hb Hc He Hp _ _. apply H; assumption. Qed.

Section Lifting.

Variable I : World -> Prop.
Hypothesis agent_step_I : forall self a, invariant I (agent_step self a).

Lemma RandomActivation_step_invariant :
  entities_only I -> invariant I RandomActivation_step.
Proof.
  intros HI. unfold RandomActivation_step. invariant_steps.
  - eapply HI; [.. | eassumption]; reflexivity.
  - destruct (lookup_agent _ _) as [[self ag]|].
    + apply agent_step_I.
    + apply invariant_ret.
  - eapply HI; [.. | eassumption]; reflexivity.
Qed.

Lemma run_simulation_invariant (ticks : nat) :
  entities_only I -> invariant I (run_simulation ticks).
Proof.
  intros HI. unfold run_simulation, print. invariant_steps.
  - eapply HI; [.. | eassumption]; reflexivity.
  - apply RandomActivation_step_invariant, HI.
Qed.

Lemma add_rule_invariant (env : Env) (which added text : string) :
  catalog_only I -> invariant I (add_rule env which added text).
Proof.
  intros HI. unfold add_rule, print. invariant_steps.
  - intros w Hw. cbn. eapply HI; [.. | exact Hw]; reflexivity.
  - intros w Hw. unfold set_as_rule.
    destruct (set_as_rule_raises env text); cbn; [exact Hw |].
    eapply HI; [.. | exact Hw]; reflexivity.
  - eapply HI; [.. | eassumption]; reflexivity.
  - eapply HI; [.. | eassumption]; reflexivity.
Qed.

Lemma schedule_add_invariant (a : Agent) :
  catalog_only I -> invariant I (schedule_add a).
Proof.
  intros HI w Hw. unfold schedule_add.
  destruct (decide _); cbn; [exact Hw |].
  eapply HI; [.. | exact Hw]; reflexivity.
Qed.

Lemma BookstoreModel_init_invariant (num_customers num_employees : nat) :
  catalog_only I -> invariant I (BookstoreModel_init num_customers num_employees).
Proof.
  intros HI. unfold BookstoreModel_init. invariant_steps;
    try (apply schedule_add_invariant, HI).
  eapply HI; [.. | eassumption]; reflexivity.
Qed.

Lemma show_results_invariant : catalog_only I -> invariant I show_results.
Proof.
  intros HI. unfold show_results, show_customer, print. invariant_steps;
    try (eapply HI; [.. | eassumption]; reflexivity).
  destruct (kind _); invariant_steps.
  eapply HI; [.. | eassumption]; reflexivity.
Qed.

Lemma apply_reasoner_invariant (env : Env) :
  catalog_only I -> invariant I (apply_reasoner env).
Proof.
  intros HI. unfold apply_reasoner, print. invariant_steps;
    try (eapply HI; [.. | eassumption]; reflexivity).
  intros w Hw. unfold sync_reasoner.
  destruct (sync_reasoner_raises env (books w)); exact Hw.
Qed.

Lemma script_invariant (env : Env) (num_customers num_employees ticks : nat) :
  catalog_only I -> invariant I (script env num_customers num_employees ticks).
Proof.
  intros HI. unfold script, simulate_and_report. invariant_steps.
  - apply add_rule_invariant, HI.
  - apply add_rule_invariant, HI.
  - eapply HI; [.. | eassumption]; reflexivity.
  - apply BookstoreModel_init_invariant, HI.
  - apply run_simulation_invariant, catalog_only_entities_only, HI.
  - eapply HI; [.. | eassumption]; reflexivity.
  - apply show_results_invariant, HI.
  - apply apply_reasoner_invariant, HI.
Qed.

End Lifting.


(** ** Buyers *)

(** A draw of [random.choice] on a non-empty list succeeds and names an
    element of the list. *)
Lemma random_choice_ok {A} (seq : list A) (w : World) :
  seq <> [] ->
  let d := randbelow (rng w) (length seq) in
  exists x, fst d < length seq /\ seq !! fst d = Some x /\
            random_choice seq w = Ok (fst d, x) (set_rng (snd d) w).
Proof.
  intros Hne d.
  assert (Hlt : fst d < length seq).
  { apply randbelow_lt. destruct seq; [congruence | simpl; lia]. }
  destruct (lookup_lt_is_Some_2 seq (fst d) Hlt) as [x Hx].
  exists x. split; [exact Hlt | split; [exact Hx |]].
  unfold random_choice. destruct seq as [|y seq']; [congruence |].
  fold d. rewrite Hx. reflexivity.
Qed.

(** C1. A buyer's act draws one book among all books with [random.choice].
    If the drawn book has a positive quantity, that quantity goes down by
    exactly one, no other book changes and the book's name is appended to
    the buyer's own purchase list.  If its quantity is zero, no quantity
    changes and nothing is recorded.  In both cases the ontology's
    relations, the rules, the other agents and the output are untouched. *)
Theorem CustomerAgent_step_spec (self uid : nat) (p : list string) (w : World) :
  books w <> [] ->
  agents w !! self = Some (mkAgent uid (CustomerAgent p)) ->
  exists i b w',
    i = fst (randbelow (rng w) (length (books w))) /\
    i < length (books w) /\
    books w !! i = Some b /\
    CustomerAgent_step self w = Ok tt w' /\
    ((0 < availableQuantity b)%Z ->
       books w' = <[i := set_availableQuantity (availableQuantity b - 1) b]> (books w) /\
       agents w' = <[self := mkAgent uid (CustomerAgent (p ++ [name b]))]> (agents w)) /\
    (availableQuantity b = 0%Z ->
       books w' = books w /\ agents w' = agents w) /\
    customers w' = customers w /\ employees w' = employees w /\
    purchases w' = purchases w /\ rules w' = rules w /\
    steps w' = steps w /\ acted w' = acted w /\ stdout w' = stdout w.
Proof.
  intros Hne Hself.
  destruct (random_choice_ok (books w) w Hne) as (b & Hlt & Hb & Hch).
  set (d := randbelow (rng w) (length (books w))) in *.
  unfold CustomerAgent_step, bind, get. rewrite Hch. cbn [fst snd].
  destruct (0 <? availableQuantity b)%Z eqn:Hq;
    eexists (fst d), b, _;
    (split; [reflexivity |]); (split; [exact Hlt |]); (split; [exact Hb |]);
    (split; [reflexivity |]);
    (split; [| split; [| cbn; repeat split]]).
  - intros _. cbn. split; [reflexivity |].
    apply list_eq. intros j.
    destruct (decide (self = j)) as [<-|Hj].
    + rewrite list_lookup_alter.
      rewrite list_lookup_insert_eq by (eapply lookup_lt_Some; eassumption).
      rewrite Hself, decide_True by reflexivity. reflexivity.
    + rewrite list_lookup_insert_ne by assumption.
      rewrite list_lookup_alter_ne by assumption. reflexivity.
  - intros Hz. apply Z.ltb_lt in Hq. lia.
  - intros Hpos. apply Z.ltb_ge in Hq. lia.
  - intros _. cbn. split; reflexivity.
Qed.

(** ** Restockers *)

Lemma restock_low (b : Book) :
  (availableQuantity b < 2)%Z ->
  restock b = set_availableQuantity (availableQuantity b + 3) b.
Proof. intros H. unfold restock. apply Z.ltb_lt in H. rewrite H. reflexivity. Qed.

Lemma restock_enough (b : Book) :
  (2 <= availableQuantity b)%Z -> restock b = b.
Proof. intros H. unfold restock. apply Z.ltb_ge in H. rewrite H. reflexivity. Qed.

(** C2. A restocker's act raises every book whose quantity [q] is below 2
    to [q + 3], once, and a second act of the same restocker right after
    leaves every book alone whose quantity is then at least 2. *)
Theorem EmployeeAgent_step_spec (w : World) (i : nat) (b : Book) :
  books w !! i = Some b ->
  exists w1 w2,
    EmployeeAgent_step w = Ok tt w1 /\
    EmployeeAgent_step w1 = Ok tt w2 /\
    ((availableQuantity b < 2)%Z ->
       books w1 !! i = Some (set_availableQuantity (availableQuantity b + 3) b)) /\
    (forall b1, books w1 !! i = Some b1 ->
       (2 <= availableQuantity b1)%Z -> books w2 !! i = Some b1).
Proof.
  intros Hb. eexists _, _. split; [reflexivity |]. split; [reflexivity |].
  cbn. split.
  - intros Hlow. rewrite list_lookup_fmap, Hb. cbn.
    rewrite restock_low by assumption. reflexivity.
  - intros b1 Hb1 Hge. rewrite list_lookup_fmap, Hb1. cbn.
    rewrite restock_enough by assumption. reflexivity.
Qed.

(** ** The scheduler *)

Lemma position_of_lookup (ids : list nat) (j k : nat) :
  NoDup ids -> ids !! j = Some k -> position_of ids k = j.
Proof.
  intros Hnd Hj. unfold position_of.
  assert (H : list_find (fun k' => k' = k) ids = Some (j, k)).
  { apply list_find_Some. split; [exact Hj | split; [reflexivity |]].
    intros j' y Hy Hlt ->.
    assert (j' = j) by (eapply NoDup_lookup; eassumption). lia. }
  rewrite H. reflexivity.
Qed.

Lemma map_position_of (ids : list nat) :
  NoDup ids -> map (position_of ids) ids = seq 0 (length ids).
Proof.
  intros Hnd. apply list_eq. intros j. rewrite list_lookup_fmap.
  destruct (ids !! j) as [k|] eqn:Hj; cbn.
  - rewrite (position_of_lookup ids j k Hnd Hj). symmetry.
    apply lookup_seq_lt. eapply lookup_lt_Some; eassumption.
  - symmetry. apply lookup_seq_ge. apply lookup_ge_None. exact Hj.
Qed.

(** A key of the schedule names the agent at the key's position. *)
Lemma lookup_agent_position (ags : list Agent) (key : nat) :
  key ∈ map unique_id ags ->
  exists a, lookup_agent key ags = Some (position_of (map unique_id ags) key, a).
Proof.
  intros Hin. unfold lookup_agent, position_of.
  change (map unique_id ags) with (unique_id <$> ags).
  rewrite (list_find_fmap unique_id (fun k => k = key)).
  apply list_elem_of_fmap in Hin as (a0 & Hkey & Ha0).
  destruct (list_find_elem_of (fun a => unique_id a = key) ags a0 Ha0)
    as [[p a] Hfind]; [symmetry; exact Hkey |].
  exists a. unfold compose. rewrite Hfind. reflexivity.
Qed.

Lemma CustomerAgent_step_returns (self : nat) (w : World) :
  books w <> [] ->
  exists w', CustomerAgent_step self w = Ok tt w' /\
    length (books w') = length (books w) /\
    map unique_id (agents w') = map unique_id (agents w) /\
    steps w' = steps w /\ acted w' = acted w /\ stdout w' = stdout w.
Proof.
  intros Hne.
  destruct (random_choice_ok (books w) w Hne) as (b & Hlt & Hb & Hch).
  unfold CustomerAgent_step, bind, get. rewrite Hch. cbn [fst snd].
  destruct (0 <? availableQuantity b)%Z; eexists; (split; [reflexivity |]); cbn.
  - rewrite length_insert.
    rewrite (map_alter_same unique_id) by apply record_purchase_unique_id.
    repeat split.
  - repeat split.
Qed.

(** The act of any agent returns when there is a book to choose, and is
    entered in the history. *)
Lemma agent_step_returns (self : nat) (a : Agent) (w : World) :
  books w <> [] ->
  exists w', agent_step self a w = Ok tt w' /\
    length (books w') = length (books w) /\
    map unique_id (agents w') = map unique_id (agents w) /\
    steps w' = steps w /\ acted w' = acted w ++ [self] /\ stdout w' = stdout w.
Proof.
  intros Hne. unfold agent_step, bind, modify. destruct (kind a).
  - destruct (CustomerAgent_step_returns self
                (set_acted (acted w ++ [self]) w) Hne)
      as (w' & Hstep & Hlen & Hids & Hst & Hact & Hout).
    exists w'. split; [exact Hstep |]. repeat split; assumption.
  - eexists. split; [reflexivity |]. cbn. rewrite length_map. repeat split.
Qed.

Lemma nonempty_length {A} (l l' : list A) :
  length l' = length l -> l <> [] -> l' <> [].
Proof. intros Hlen Hl ->. destruct l; [congruence | discriminate]. Qed.

(** One tick returns; its acts are those of the shuffled keys, in order. *)
Lemma RandomActivation_step_returns (w : World) :
  books w <> [] ->
  exists w',
    RandomActivation_step w = Ok tt w' /\
    steps w' = S (steps w) /\
    acted w' = acted w ++
      map (position_of (map unique_id (agents w)))
          (fst (shuffle (rng w) (map unique_id (agents w)))) /\
    map unique_id (agents w') = map unique_id (agents w) /\
    length (books w') = length (books w) /\
    stdout w' = stdout w.
Proof.
  intros Hne.
  set (ids := map unique_id (agents w)).
  set (d := shuffle (rng w) ids).
  pose (J := fun (visited : list nat) (w1 : World) =>
    map unique_id (agents w1) = ids /\
    length (books w1) = length (books w) /\
    steps w1 = steps w /\
    stdout w1 = stdout w /\
    acted w1 = acted w ++ map (position_of ids) visited).
  destruct (for_each_ok J
    (fun key =>
       w <- get ;;
       match lookup_agent key (agents w) with
       | Some (self, a) => agent_step self a
       | None => ret tt
       end) (fst d) [] (set_rng (snd d) w)) as (w1 & Hloop & HJ).
  - intros pre key w1 Hkey (Hids & Hlen & Hst & Hout & Hact).
    assert (Hin : key ∈ map unique_id (agents w1)).
    { rewrite Hids. eapply elem_of_Permutation_proper; [| exact Hkey].
      apply shuffle_perm. }
    destruct (lookup_agent_position (agents w1) key Hin) as (a & Hfind).
    unfold bind, get. rewrite Hfind.
    destruct (agent_step_returns (position_of (map unique_id (agents w1)) key)
                a w1) as (w2 & Hstep & Hlen2 & Hids2 & Hst2 & Hact2 & Hout2).
    { eapply nonempty_length; [exact Hlen | exact Hne]. }
    exists w2. split; [exact Hstep |]. unfold J.
    rewrite Hids2, Hlen2, Hst2, Hout2, Hact2, Hact, Hids, map_app, <- app_assoc.
    repeat split; assumption.
  - unfold J. cbn. rewrite app_nil_r. repeat split.
  - destruct HJ as (Hids & Hlen & Hst & Hout & Hact). cbn [app] in Hact.
    exists (set_steps (S (steps w1)) w1). split.
    + unfold RandomActivation_step, bind, get, modify. fold ids. fold d.
      cbn beta zeta. unfold bind, get in Hloop. rewrite Hloop. reflexivity.
    + cbn. rewrite Hst. repeat split; assumption.
Qed.

Lemma shuffled_positions (ids : list nat) (g : Rng) :
  NoDup ids ->
  Permutation (map (position_of ids) (fst (shuffle g ids)))
              (seq 0 (length ids)).
Proof.
  intros Hnd. rewrite <- (map_position_of ids Hnd).
  apply Permutation_map. symmetry. apply shuffle_perm.
Qed.

Lemma count_occ_positions (order : list nat) (n self : nat) :
  Permutation order (seq 0 n) -> self < n ->
  count_occ Nat.eq_dec order self = 1.
Proof.
  intros Hperm Hlt.
  rewrite (proj1 (Permutation_count_occ Nat.eq_dec _ _) Hperm).
  apply NoDup_count_occ'; [apply seq_NoDup |].
  apply in_seq. lia.
Qed.

(** The loop of the run returns after all its ticks. *)
Lemma run_simulation_returns (ticks : nat) (w : World) :
  NoDup (map unique_id (agents w)) ->
  books w <> [] ->
  exists w',
    run_simulation ticks w = Ok tt w' /\
    steps w' = steps w + ticks /\
    (forall self, self < length (agents w) ->
       count_occ Nat.eq_dec (acted w') self =
       count_occ Nat.eq_dec (acted w) self + ticks) /\
    stdout w' = stdout w ++ map (fun i => StepRunning (i + 1) ticks) (seq 0 ticks) /\
    map unique_id (agents w') = map unique_id (agents w) /\
    length (books w') = length (books w).
Proof.
  intros Hnd Hne.
  pose (J := fun (visited : list nat) (w1 : World) =>
    map unique_id (agents w1) = map unique_id (agents w) /\
    length (books w1) = length (books w) /\
    steps w1 = steps w + length visited /\
    stdout w1 = stdout w ++ map (fun i => StepRunning (i + 1) ticks) visited /\
    forall self, self < length (agents w) ->
      count_occ Nat.eq_dec (acted w1) self =
      count_occ Nat.eq_dec (acted w) self + length visited).
  destruct (for_each_ok J
    (fun i => print (StepRunning (i + 1) ticks) ;; BookstoreModel_step)
    (seq 0 ticks) [] w) as (w' & Hrun & HJ).
  - intros pre i w1 _ (Hids & Hlen & Hst & Hout & Hcount).
    unfold bind, print, modify.
    destruct (RandomActivation_step_returns
                (set_stdout (stdout w1 ++ [StepRunning (i + 1) ticks]) w1))
      as (w2 & Hstep & Hst2 & Hact2 & Hids2 & Hlen2 & Hout2).
    { cbn. eapply nonempty_length; [exact Hlen | exact Hne]. }
    exists w2. split; [exact Hstep |].
    cbn in Hst2, Hact2, Hids2, Hlen2, Hout2. unfold J.
    rewrite Hids2, Hlen2, Hst2, Hout2, Hst, Hout, Hids, length_app, map_app,
      <- app_assoc.
    split; [reflexivity |]. split; [assumption |]. split; [cbn; lia |].
    split; [reflexivity |].
    intros self Hself. rewrite Hact2, count_occ_app, (Hcount self Hself), Hids.
    rewrite (count_occ_positions
               (map (position_of (map unique_id (agents w)))
                    (fst (shuffle (rng w1) (map unique_id (agents w)))))
               (length (map unique_id (agents w)))).
    + cbn. lia.
    + apply shuffled_positions, Hnd.
    + rewrite length_map. exact Hself.
  - unfold J. cbn. rewrite app_nil_r. repeat split; intros; lia.
  - destruct HJ as (Hids & Hlen & Hst & Hout & Hcount).
    cbn [app] in *. rewrite length_seq in *.
    exists w'. repeat split; assumption.
Qed.

(** C4. From a schedule whose keys are distinct and a non-empty catalog, one
    step of the model is one tick: the counter goes up by one and the acts
    of the tick are those of the shuffled keys, in that order, one after the
    other, a permutation of the schedule in which every agent occurs once.
    A run of [ticks] ticks returns after exactly [ticks] of them, announced
    as 1 to [ticks] in turn, and every agent has then acted [ticks] times. *)
Theorem scheduler_ticks (w : World) (ticks : nat) :
  NoDup (map unique_id (agents w)) ->
  books w <> [] ->
  (exists order w1,
     BookstoreModel_step w = Ok tt w1 /\
     steps w1 = S (steps w) /\
     order = map (position_of (map unique_id (agents w)))
                 (fst (shuffle (rng w) (map unique_id (agents w)))) /\
     acted w1 = acted w ++ order /\
     Permutation order (seq 0 (length (agents w))) /\
     forall self, self < length (agents w) ->
       count_occ Nat.eq_dec order self = 1) /\
  (exists w',
     run_simulation ticks w = Ok tt w' /\
     steps w' = steps w + ticks /\
     stdout w' = stdout w ++ map (fun i => StepRunning (i + 1) ticks) (seq 0 ticks) /\
     forall self, self < length (agents w) ->
       count_occ Nat.eq_dec (acted w') self =
       count_occ Nat.eq_dec (acted w) self + ticks).
Proof.
  intros Hnd Hne. split.
  - destruct (RandomActivation_step_returns w Hne)
      as (w1 & Hstep & Hst & Hact & _).
    assert (Hperm := shuffled_positions _ (rng w) Hnd).
    rewrite length_map in Hperm.
    eexists _, w1. split; [exact Hstep |]. split; [exact Hst |].
    split; [reflexivity |]. split; [exact Hact |]. split; [exact Hperm |].
    intros self Hself. eapply count_occ_positions; eassumption.
  - destruct (run_simulation_returns ticks w Hnd Hne)
      as (w' & Hrun & Hst & Hcount & Hout & _).
    exists w'. repeat split; assumption.
Qed.


(** ** The stages of the script around the simulation *)

Lemma set_stdout_same (w : World) : set_stdout (stdout w) w = w.
Proof. destruct w; reflexivity. Qed.

Lemma add_rule_spec (env : Env) (which added text : string) (w : World) :
  add_rule env which added text w =
  match set_as_rule_raises env text with
  | None =>
      Ok tt (set_stdout (stdout w ++ [Line added])
               (set_rules (rules w ++ [mkImp (Some text)]) w))
  | Some e =>
      Ok tt (set_stdout (stdout w ++ [SwrlNotAdded which e])
               (set_rules (rules w ++ [mkImp None]) w))
  end.
Proof.
  unfold add_rule, try_except, bind, new_Imp, set_as_rule, print, modify.
  destruct (set_as_rule_raises env text); cbn; [reflexivity |].
  rewrite insert_app_r_alt, Nat.sub_diag by lia. reflexivity.
Qed.

Lemma for_each_print {A} (f : A -> Event) (l : list A) (w : World) :
  for_each l (fun x => print (f x)) w =
  Ok tt (set_stdout (stdout w ++ map f l) w).
Proof.
  revert w. induction l as [|x l IH]; intros w; cbn [for_each map].
  - unfold ret. rewrite app_nil_r, set_stdout_same. reflexivity.
  - unfold bind. rewrite print_spec, IH. cbn. rewrite <- app_assoc. reflexivity.
Qed.

Lemma for_each_show_customer (l : list Agent) (w : World) :
  for_each l show_customer w =
  Ok tt (set_stdout (stdout w ++ omap customer_line l) w).
Proof.
  revert w. induction l as [|a l IH]; intros w; cbn [for_each omap].
  - unfold ret. cbn. rewrite app_nil_r, set_stdout_same. reflexivity.
  - unfold bind, show_customer, customer_line, list_omap.
    destruct (kind a); cbn.
    + rewrite IH. cbn. rewrite <- app_assoc. reflexivity.
    + rewrite IH. reflexivity.
Qed.

Lemma show_results_spec (w : World) :
  show_results w = Ok tt (set_stdout (stdout w ++ report w) w).
Proof.
  unfold show_results, bind, get. rewrite print_spec.
  rewrite for_each_print, print_spec, for_each_show_customer, !print_spec.
  cbn. unfold report. rewrite <- !app_assoc. reflexivity.
Qed.

Lemma apply_reasoner_spec (env : Env) (w : World) :
  apply_reasoner env w =
  Ok tt (set_stdout
           (stdout w ++
            [match sync_reasoner_raises env (books w) with
             | None => Line "[Reasoner] Reasoner finished."
             | Some e => ReasonerNotRun e
             end]) w).
Proof.
  unfold apply_reasoner, try_except, bind, sync_reasoner, print, modify.
  destruct (sync_reasoner_raises env (books w)); reflexivity.
Qed.

(** Agents whose keys are new are all scheduled, in order. *)
Lemma schedule_add_all (f : nat -> Agent) (l : list nat) :
  forall w,
    NoDup (map unique_id (agents w) ++ map (fun i => unique_id (f i)) l) ->
    for_each l (fun i => schedule_add (f i)) w =
    Ok tt (set_agents (agents w ++ map f l) w).
Proof.
  induction l as [|x l IH]; intros w Hnd; cbn [for_each map].
  - unfold ret. rewrite app_nil_r. destruct w; reflexivity.
  - unfold bind, schedule_add at 1.
    apply NoDup_app in Hnd as (Hnd1 & Hnew & Hnd2).
    destruct (decide (unique_id (f x) ∈ map unique_id (agents w))) as [Hin|_].
    { exfalso. apply (Hnew _ Hin). left. }
    rewrite IH.
    + cbn. rewrite <- app_assoc. reflexivity.
    + cbn. rewrite map_app. cbn. rewrite <- app_assoc. cbn.
      apply NoDup_app. split; [exact Hnd1 |]. split; [exact Hnew | exact Hnd2].
Qed.

Lemma initial_agents_ids (num_customers num_employees : nat) :
  map unique_id (initial_agents num_customers num_employees) =
  seq 0 num_customers ++ map (fun i => i + 100) (seq 0 num_employees).
Proof. unfold initial_agents. rewrite map_app, !map_map. cbn. rewrite map_id. reflexivity. Qed.

Lemma initial_agents_NoDup (num_customers num_employees : nat) :
  num_customers <= 100 \/ num_employees = 0 ->
  NoDup (map unique_id (initial_agents num_customers num_employees)).
Proof.
  intros Hsmall. rewrite initial_agents_ids. apply NoDup_app.
  split; [apply NoDup_seq |]. split.
  - intros k Hk Hk'. apply elem_of_seq in Hk.
    apply list_elem_of_fmap in Hk' as (i & -> & Hi). apply elem_of_seq in Hi.
    lia.
  - apply NoDup_fmap_2_strong; [| apply NoDup_seq]. intros i j _ _ Hij. lia.
Qed.

(** The model is built whenever the buyers' keys stay below the first
    restocker's key. *)
Lemma BookstoreModel_init_spec (num_customers num_employees : nat) (w : World) :
  num_customers <= 100 \/ num_employees = 0 ->
  BookstoreModel_init num_customers num_employees w =
  Ok tt (set_agents (initial_agents num_customers num_employees) (set_steps 0 w)).
Proof.
  intros Hsmall. assert (Hnd := initial_agents_NoDup _ _ Hsmall).
  rewrite initial_agents_ids in Hnd.
  unfold BookstoreModel_init, bind, modify.
  rewrite (schedule_add_all (fun i => mkAgent i (CustomerAgent []))).
  - rewrite (schedule_add_all (fun i => mkAgent (i + 100) EmployeeAgent)).
    + reflexivity.
    + cbn. rewrite map_map. cbn. rewrite map_id. exact Hnd.
  - cbn. rewrite map_id. apply NoDup_app in Hnd as (Hnd & _). exact Hnd.
Qed.


Lemma add_rule_core (env : Env) (which added text : string) (w : World) :
  exists w', add_rule env which added text w = Ok tt w' /\ core w' = core w.
Proof.
  rewrite add_rule_spec.
  destruct (set_as_rule_raises env text); eexists; split; reflexivity.
Qed.

Lemma core_fields (w w' : World) :
  core w' = core w ->
  books w' = books w /\ customers w' = customers w /\
  employees w' = employees w /\ purchases w' = purchases w /\
  agents w' = agents w /\ steps w' = steps w /\ acted w' = acted w /\
  rng w' = rng w.
Proof. unfold core. intros H. injection H as -> -> -> -> -> -> -> ->. repeat split. Qed.

(** Sections 2 to 6 of the script return whenever the model can be built
    and there is a book to choose: the run has its [ticks] ticks and every
    agent of the model has acted in each. *)
Lemma simulate_and_report_returns (env : Env)
    (num_customers num_employees ticks : nat) (w : World) :
  num_customers <= 100 \/ num_employees = 0 ->
  books w <> [] ->
  exists w',
    simulate_and_report env num_customers num_employees ticks w = Ok tt w' /\
    steps w' = ticks /\
    map unique_id (agents w') =
      map unique_id (initial_agents num_customers num_employees) /\
    forall self, self < num_customers + num_employees ->
      count_occ Nat.eq_dec (acted w') self =
      count_occ Nat.eq_dec (acted w) self + ticks.
Proof.
  intros Hsmall Hne. unfold simulate_and_report, bind.
  destruct (add_rule_core env "purchase" "[SWRL] Purchase rule added successfully"
              rule1_text w) as (w1 & -> & Hc1).
  destruct (add_rule_core env "restock" "[SWRL] Restock rule added successfully"
              rule2_text w1) as (w2 & -> & Hc2).
  rewrite print_spec, BookstoreModel_init_spec by exact Hsmall.
  apply core_fields in Hc1 as (Hb1 & _ & _ & _ & _ & _ & Ha1 & _).
  apply core_fields in Hc2 as (Hb2 & _ & _ & _ & _ & _ & Ha2 & _).
  match goal with |- context [run_simulation ticks ?w0] =>
    destruct (run_simulation_returns ticks w0)
      as (w3 & -> & Hst & Hcount & _ & Hids & _)
  end.
  { cbn. apply initial_agents_NoDup, Hsmall. }
  { cbn. rewrite Hb2, Hb1. exact Hne. }
  rewrite print_spec, show_results_spec. eexists. split; [reflexivity |].
  cbn in *. split; [exact Hst |]. split; [exact Hids |].
  intros self Hself. rewrite Hcount, Ha2, Ha1; [reflexivity |].
  unfold initial_agents. rewrite length_app, !length_map, !length_seq.
  exact Hself.
Qed.

Lemma script_returns (env : Env) (num_customers num_employees ticks : nat)
    (w : World) :
  num_customers <= 100 \/ num_employees = 0 ->
  books w <> [] ->
  exists w', script env num_customers num_employees ticks w = Ok tt w'.
Proof.
  intros Hsmall Hne. unfold script, bind.
  destruct (simulate_and_report_returns env num_customers num_employees ticks
              w Hsmall Hne) as (w1 & -> & _).
  rewrite apply_reasoner_spec. eexists. reflexivity.
Qed.

(** ** Quantities and prices *)

Lemma quantities_nonneg_catalog_only : catalog_only quantities_nonneg.
Proof.
  intros w w' Hb _ _ _. unfold quantities_nonneg. rewrite Hb. trivial.
Qed.

(** C5. After setup every book has a non-negative quantity and a
    non-negative price; no act of an agent makes a quantity negative; and
    the script as shipped (three books of quantity 5, 8 buyers, 2
    restockers, 15 ticks) returns with every quantity non-negative,
    whatever the random draws. *)
Theorem quantities_never_negative (env : Env) (seed : Rng) :
  Forall (fun b => (0 <= availableQuantity b)%Z /\ price_nonneg b)
         (books (initial_world seed)) /\
  (forall self a w,
     quantities_nonneg w -> quantities_nonneg (state_of (agent_step self a w))) /\
  (forall w,
     quantities_nonneg w -> quantities_nonneg (state_of (BookstoreModel_step w))) /\
  exists w',
    main env (initial_world seed) = Ok tt w' /\ quantities_nonneg w'.
Proof.
  split.
  { cbn. repeat constructor; cbn; lia. }
  split; [intros self a; apply agent_step_nonneg |].
  split.
  { apply RandomActivation_step_invariant.
    - apply agent_step_nonneg.
    - apply catalog_only_entities_only, quantities_nonneg_catalog_only. }
  destruct (script_returns env 8 2 15 (initial_world seed)) as (w' & Hrun).
  { left. lia. }
  { discriminate. }
  exists w'. split; [exact Hrun |].
  change w' with (state_of (Ok tt w')). unfold main in *. rewrite <- Hrun.
  apply script_invariant.
  - apply agent_step_nonneg.
  - apply quantities_nonneg_catalog_only.
  - unfold quantities_nonneg. cbn. repeat constructor; cbn; lia.
Qed.

Lemma same_entities_entities_only (w0 : World) : entities_only (same_entities w0).
Proof.
  intros w w' Hb Hc He Hp Hr Ha. unfold same_entities.
  rewrite Hb, Hc, He, Hp, Hr, Ha. trivial.
Qed.

(** C7. A book's price is never changed: after any act of an agent, any
    tick and any run of ticks the books carry the prices, and the names,
    they had before, in the same order; and the relations of the ontology,
    the rules, and the keys and classes of the agents are as before. *)
Theorem prices_immutable (w : World) (self : nat) (a : Agent) (ticks : nat) :
  let after_act := state_of (agent_step self a w) in
  let after_tick := state_of (BookstoreModel_step w) in
  let after_run := state_of (run_simulation ticks w) in
  (map hasPrice (books after_act) = map hasPrice (books w) /\
   same_entities w after_act) /\
  (map hasPrice (books after_tick) = map hasPrice (books w) /\
   same_entities w after_tick) /\
  (map hasPrice (books after_run) = map hasPrice (books w) /\
   same_entities w after_run).
Proof.
  assert (Hact : same_entities w (state_of (agent_step self a w))).
  { apply agent_step_same_entities, same_entities_refl. }
  assert (Htick : same_entities w (state_of (BookstoreModel_step w))).
  { apply RandomActivation_step_invariant.
    - intros; apply agent_step_same_entities.
    - apply same_entities_entities_only.
    - apply same_entities_refl. }
  assert (Hrun : same_entities w (state_of (run_simulation ticks w))).
  { apply run_simulation_invariant.
    - intros; apply agent_step_same_entities.
    - apply same_entities_entities_only.
    - apply same_entities_refl. }
  cbv zeta. repeat split; first [exact Hact | exact Htick | exact Hrun
    | apply Hact | apply Htick | apply Hrun].
Qed.


(** ** The purchase rule *)

Lemma lookup_fire_rule1 (t : string * string) (bs : list Book) (i : nat) (b : Book) :
  bs !! i = Some b ->
  fire_rule1 t bs !! i =
  Some (if decide (name b = snd t) then decrement b else b).
Proof. intros Hb. unfold fire_rule1. rewrite list_lookup_fmap, Hb. reflexivity. Qed.

(** Firing the rule on [ts], all bindings of the book named [n], takes
    [length ts] from the quantity of that book. *)
Lemma fold_fire_rule1 (n : string) (ts : list (string * string)) :
  forall (bs : list Book) (i : nat) (b : Book),
    Forall (fun t => snd t = n) ts ->
    bs !! i = Some b ->
    name b = n ->
    fold_left (fun bs t => fire_rule1 t bs) ts bs !! i =
    Some (set_availableQuantity (availableQuantity b - Z.of_nat (length ts)) b).
Proof.
  induction ts as [|t ts IH]; intros bs i b Hts Hb Hn; cbn [fold_left length].
  - rewrite Hb. f_equal. unfold set_availableQuantity.
    rewrite Nat2Z.inj_0, Z.sub_0_r. destruct b; reflexivity.
  - apply Forall_cons in Hts as (Ht & Hts).
    rewrite (IH (fire_rule1 t bs) i (decrement b) Hts).
    + f_equal. unfold decrement, set_availableQuantity.
      cbn [name availableQuantity hasPrice]. f_equal. lia.
    + rewrite (lookup_fire_rule1 t bs i b Hb).
      rewrite decide_True by congruence. reflexivity.
    + exact Hn.
Qed.

Lemma length_filter_eq (x : string * string) (l : list (string * string)) :
  length (filter (fun t => t = x) l) =
  count_occ (fun x y : string * string => decide (x = y)) l x.
Proof.
  induction l as [|y l IH]; [reflexivity |].
  rewrite filter_cons. cbn [count_occ].
  destruct (decide (y = x)) as [->|Hne]; cbn; rewrite IH; reflexivity.
Qed.

Lemma filter_filter_eq (P : string * string -> Prop) `{!forall t, Decision (P t)}
    (x : string * string) (l : list (string * string)) :
  P x -> filter (fun t => t = x) (filter P l) = filter (fun t => t = x) l.
Proof.
  intros Hx. induction l as [|y l IH]; [reflexivity |].
  rewrite !filter_cons.
  destruct (decide (P y)) as [Hy|Hy].
  - rewrite filter_cons. destruct (decide (y = x)); rewrite IH; reflexivity.
  - destruct (decide (y = x)) as [->|_]; [contradiction | exact IH].
Qed.

(** C3.  For a customer [c] of the store and a book [b] named [n], the rule
    has one binding for each entry of the log for [(c, n)], and running it
    once for each of them takes exactly that number from the quantity of
    [b]: two entries, two firings, two units. *)
Theorem purchase_rule_cardinality (w : World) (c n : string) (i : nat) (b : Book) :
  c ∈ customers w ->
  books w !! i = Some b ->
  name b = n ->
  length (rule1_bindings_for c n w) = log_entries c n w /\
  books (apply_rule1 (rule1_bindings_for c n w) w) !! i =
    Some (set_availableQuantity
            (availableQuantity b - Z.of_nat (log_entries c n w)) b) /\
  (log_entries c n w = 2 ->
   books (apply_rule1 (rule1_bindings_for c n w) w) !! i =
     Some (set_availableQuantity (availableQuantity b - 2) b)).
Proof.
  intros Hc Hb Hn.
  assert (Hlen : length (rule1_bindings_for c n w) = log_entries c n w).
  { unfold rule1_bindings_for, rule1_bindings, log_entries.
    rewrite filter_filter_eq; [apply length_filter_eq |].
    split; [exact Hc |]. cbn. rewrite <- Hn.
    apply list_elem_of_fmap_2. eapply list_elem_of_lookup_2, Hb. }
  assert (Hfire :
    books (apply_rule1 (rule1_bindings_for c n w) w) !! i =
    Some (set_availableQuantity
            (availableQuantity b - Z.of_nat (log_entries c n w)) b)).
  { unfold apply_rule1. cbn. rewrite <- Hlen.
    apply (fold_fire_rule1 n); [| exact Hb | exact Hn].
    unfold rule1_bindings_for. apply Forall_forall. intros t Ht.
    apply list_elem_of_filter in Ht as (-> & _). reflexivity. }
  split; [exact Hlen |]. split; [exact Hfire |].
  intros H2. rewrite Hfire, H2. reflexivity.
Qed.

(** ** The [purchases] relation during the run *)

Lemma no_purchase_asserted_catalog_only : catalog_only no_purchase_asserted.
Proof.
  intros w w' _ Hc _ Hp. unfold no_purchase_asserted. rewrite Hc, Hp. trivial.
Qed.

Lemma agent_step_no_purchase (self : nat) (a : Agent) :
  invariant no_purchase_asserted (agent_step self a).
Proof.
  intros w (Hp & Hc).
  destruct (agent_step_same_entities w self a w (same_entities_refl w))
    as (_ & _ & Hc' & _ & Hp' & _).
  unfold no_purchase_asserted. rewrite Hp', Hc'. split; assumption.
Qed.

Lemma no_purchase_no_binding (w : World) :
  no_purchase_asserted w -> rule1_bindings w = [] /\ rule1_pass w = w.
Proof.
  intros (Hp & _).
  assert (Hb : rule1_bindings w = []) by (unfold rule1_bindings; rewrite Hp; reflexivity).
  split; [exact Hb |]. unfold rule1_pass. rewrite Hb.
  destruct w; reflexivity.
Qed.

(** C10. The script never asserts a tuple of [purchases], nor creates a
    [Customer] individual: buyers write to their own lists only.  So after
    every act, every tick and the whole script, for any numbers of agents and
    ticks, rule 1 has no binding, and a pass of it changes no quantity. *)
Theorem purchases_never_asserted (env : Env)
    (num_customers num_employees ticks : nat) (seed : Rng) :
  no_purchase_asserted (initial_world seed) /\
  (forall self a w,
     no_purchase_asserted w ->
     let w' := state_of (agent_step self a w) in
     no_purchase_asserted w' /\ rule1_bindings w' = [] /\ rule1_pass w' = w') /\
  (forall w,
     no_purchase_asserted w ->
     let w' := state_of (BookstoreModel_step w) in
     no_purchase_asserted w' /\ rule1_bindings w' = [] /\ rule1_pass w' = w') /\
  (let w' := state_of (script env num_customers num_employees ticks
                         (initial_world seed)) in
   no_purchase_asserted w' /\ rule1_bindings w' = [] /\ rule1_pass w' = w').
Proof.
  assert (H0 : no_purchase_asserted (initial_world seed)) by (split; reflexivity).
  split; [exact H0 |]. split; [| split].
  - intros self a w Hw w'.
    assert (Hw' : no_purchase_asserted w') by (apply agent_step_no_purchase, Hw).
    split; [exact Hw' | apply no_purchase_no_binding, Hw'].
  - intros w Hw w'.
    assert (Hw' : no_purchase_asserted w').
    { apply RandomActivation_step_invariant; [apply agent_step_no_purchase | | exact Hw].
      apply catalog_only_entities_only, no_purchase_asserted_catalog_only. }
    split; [exact Hw' | apply no_purchase_no_binding, Hw'].
  - intros w'.
    assert (Hw' : no_purchase_asserted w').
    { apply script_invariant; [apply agent_step_no_purchase | | exact H0].
      apply no_purchase_asserted_catalog_only. }
    split; [exact Hw' | apply no_purchase_no_binding, Hw'].
Qed.


(** ** What a run depends on *)

Ltac core_eq H :=
  pose proof (core_fields _ _ H)
    as (?Hbooks & ?Hcust & ?Hempl & ?Hpurch & ?Hagents & ?Hsteps & ?Hacted & ?Hrng).

Lemma core_intro (w w' : World) :
  books w' = books w -> customers w' = customers w ->
  employees w' = employees w -> purchases w' = purchases w ->
  agents w' = agents w -> steps w' = steps w -> acted w' = acted w ->
  rng w' = rng w -> core w' = core w.
Proof. unfold core. intros -> -> -> -> -> -> -> ->. reflexivity. Qed.

Lemma related_ret {A} (a : A) : related (ret a) (ret a).
Proof. intros w1 w2 Hc. split; [reflexivity | exact Hc]. Qed.

Lemma related_bind {A B} (m1 m2 : M A) (k1 k2 : A -> M B) :
  related m1 m2 -> (forall a, related (k1 a) (k2 a)) ->
  related (bind m1 k1) (bind m2 k2).
Proof.
  intros Hm Hk w1 w2 Hc. unfold bind. specialize (Hm w1 w2 Hc).
  destruct (m1 w1) as [a1 v1|e1 v1], (m2 w2) as [a2 v2|e2 v2];
    cbn in Hm; try contradiction.
  - destruct Hm as (-> & Hv). apply Hk, Hv.
  - exact Hm.
Qed.

Lemma related_get_bind {B} (k1 k2 : World -> M B) :
  (forall w1 w2, core w1 = core w2 -> agree (k1 w1 w1) (k2 w2 w2)) ->
  related (bind get k1) (bind get k2).
Proof. intros Hk w1 w2 Hc. unfold bind, get. apply Hk, Hc. Qed.

Lemma related_modify (f1 f2 : World -> World) :
  (forall w1 w2, core w1 = core w2 -> core (f1 w1) = core (f2 w2)) ->
  related (modify f1) (modify f2).
Proof. intros Hf w1 w2 Hc. split; [reflexivity | apply Hf, Hc]. Qed.

Lemma related_print (e1 e2 : Event) : related (print e1) (print e2).
Proof. apply related_modify. intros w1 w2 Hc. exact Hc. Qed.

Lemma related_for_each {A} (l : list A) (b1 b2 : A -> M unit) :
  (forall x, related (b1 x) (b2 x)) -> related (for_each l b1) (for_each l b2).
Proof.
  intros Hb. induction l as [|x l IH]; cbn [for_each].
  - apply related_ret.
  - apply related_bind; [apply Hb | intros _; exact IH].
Qed.

Lemma related_CustomerAgent_step (self : nat) :
  related (CustomerAgent_step self) (CustomerAgent_step self).
Proof.
  intros w1 w2 Hc. unfold CustomerAgent_step, bind, get, random_choice.
  core_eq Hc. rewrite Hbooks, Hrng.
  destruct (books w2) as [|b0 bs] eqn:Hbs.
  - split; [reflexivity |]. apply core_intro; congruence.
  - rewrite <- Hbs.
    destruct (books w2 !! fst (randbelow (rng w2) (length (books w2))))
      as [b|]; cbn [fst snd].
    + destruct (0 <? availableQuantity b)%Z.
      * split; [reflexivity |]. apply core_intro; cbn; congruence.
      * split; [reflexivity |]. apply core_intro; cbn; congruence.
    + split; [reflexivity |]. apply core_intro; cbn; congruence.
Qed.

Lemma related_agent_step (self : nat) (a : Agent) :
  related (agent_step self a) (agent_step self a).
Proof.
  unfold agent_step. apply related_bind.
  - apply related_modify. intros w1 w2 Hc. core_eq Hc.
    apply core_intro; cbn; congruence.
  - intros _. destruct (kind a).
    + apply related_CustomerAgent_step.
    + apply related_modify. intros w1 w2 Hc. core_eq Hc.
      apply core_intro; cbn; congruence.
Qed.

Lemma related_RandomActivation_step :
  related RandomActivation_step RandomActivation_step.
Proof.
  unfold RandomActivation_step. apply related_get_bind. intros w1 w2 Hc.
  core_eq Hc. cbv zeta. rewrite Hagents, Hrng.
  match goal with
  | |- agree (?m1 w1) (?m2 w2) =>
      enough (Hrel : related m1 m2) by exact (Hrel w1 w2 Hc)
  end.
  clear.
  apply related_bind; [| intros _; apply related_bind; [| intros _]].
  - apply related_modify. intros v1 v2 Hv. core_eq Hv.
    apply core_intro; cbn; congruence.
  - apply related_for_each. intros key. apply related_get_bind.
    intros v1 v2 Hv. core_eq Hv. rewrite Hagents.
    destruct (lookup_agent key (agents v2)) as [[self a]|].
    + apply related_agent_step, Hv.
    + apply related_ret, Hv.
  - apply related_modify. intros v1 v2 Hv. core_eq Hv.
    apply core_intro; cbn; congruence.
Qed.

Lemma related_run_simulation (ticks : nat) :
  related (run_simulation ticks) (run_simulation ticks).
Proof.
  unfold run_simulation. apply related_for_each. intros i.
  apply related_bind; [apply related_print | intros _].
  apply related_RandomActivation_step.
Qed.

Lemma related_schedule_add (a : Agent) : related (schedule_add a) (schedule_add a).
Proof.
  intros w1 w2 Hc. unfold schedule_add. core_eq Hc. rewrite Hagents.
  destruct (decide _); (split; [reflexivity |]); [exact Hc |].
  apply core_intro; cbn; congruence.
Qed.

Lemma related_BookstoreModel_init (num_customers num_employees : nat) :
  related (BookstoreModel_init num_customers num_employees)
          (BookstoreModel_init num_customers num_employees).
Proof.
  unfold BookstoreModel_init.
  apply related_bind; [| intros _; apply related_bind; [| intros _]].
  - apply related_modify. intros w1 w2 Hc. core_eq Hc.
    apply core_intro; cbn; congruence.
  - apply related_for_each. intros i. apply related_schedule_add.
  - apply related_for_each. intros i. apply related_schedule_add.
Qed.

Lemma related_add_rule (env1 env2 : Env) (which added text : string) :
  related (add_rule env1 which added text) (add_rule env2 which added text).
Proof.
  intros w1 w2 Hc.
  destruct (add_rule_core env1 which added text w1) as (v1 & -> & H1).
  destruct (add_rule_core env2 which added text w2) as (v2 & -> & H2).
  split; [reflexivity | congruence].
Qed.

Lemma related_show_results : related show_results show_results.
Proof.
  intros w1 w2 Hc. rewrite !show_results_spec. split; [reflexivity | exact Hc].
Qed.

Lemma related_apply_reasoner (env1 env2 : Env) :
  related (apply_reasoner env1) (apply_reasoner env2).
Proof.
  intros w1 w2 Hc. rewrite !apply_reasoner_spec. split; [reflexivity | exact Hc].
Qed.

Lemma related_script (env1 env2 : Env) (num_customers num_employees ticks : nat) :
  related (script env1 num_customers num_employees ticks)
          (script env2 num_customers num_employees ticks).
Proof.
  unfold script, simulate_and_report.
  apply related_bind; [| intros _; apply related_apply_reasoner].
  apply related_bind; [apply related_add_rule | intros _].
  apply related_bind; [apply related_add_rule | intros _].
  apply related_bind; [apply related_print | intros _].
  apply related_bind; [apply related_BookstoreModel_init | intros _].
  apply related_bind; [apply related_run_simulation | intros _].
  apply related_bind; [apply related_print | intros _].
  apply related_show_results.
Qed.

Lemma agree_state {A} (r1 r2 : Res A) :
  agree r1 r2 ->
  succeeded r1 = succeeded r2 /\ core (state_of r1) = core (state_of r2).
Proof.
  destruct r1, r2; cbn; try contradiction; intros (_ & Hc); split; trivial.
Qed.

(** The answers of the ontology library have no part in the result: two
    runs of the script from one state, with the same numbers of agents and
    ticks, end alike, both returning or both raising, with the same catalog,
    the same purchase logs and the same report, whatever [set_as_rule] and
    [sync_reasoner] answer in each. *)
Theorem runs_agree (env1 env2 : Env) (num_customers num_employees ticks : nat)
    (w : World) :
  let run1 := script env1 num_customers num_employees ticks w in
  let run2 := script env2 num_customers num_employees ticks w in
  succeeded run1 = succeeded run2 /\
  final_catalog (state_of run1) = final_catalog (state_of run2) /\
  purchase_logs (state_of run1) = purchase_logs (state_of run2) /\
  report (state_of run1) = report (state_of run2).
Proof.
  intros run1 run2.
  destruct (agree_state run1 run2) as (Hs & Hc).
  { apply related_script. reflexivity. }
  core_eq Hc. split; [exact Hs |].
  unfold final_catalog, purchase_logs, report.
  rewrite Hbooks, Hagents, Hpurch. repeat split.
Qed.


(** ** Failures of the ontology library *)

(** C8.  When [set_as_rule] raises on a rule text, the
    registration block returns normally: the failure is printed, nothing
    that the simulation reads is touched, and the rule object that [Imp()]
    had created before the parse stays in the ontology, holding no rule.
    Registering another rule afterwards has the effect it has in any state,
    and the script ends as it does when the library accepts every rule:
    same outcome, same catalog, same purchase logs. *)
Theorem malformed_rule_is_not_fatal (env : Env) (which added text : string)
    (e : Exn) (w : World) :
  set_as_rule_raises env text = Some e ->
  (exists w',
     add_rule env which added text w = Ok tt w' /\
     stdout w' = stdout w ++ [SwrlNotAdded which e] /\
     rules w' = rules w ++ [mkImp None] /\
     core w' = core w) /\
  (forall which2 added2 text2,
     exists imp ev,
       (imp = mkImp (Some text2) <-> set_as_rule_raises env text2 = None) /\
       forall w2,
         add_rule env which2 added2 text2 w2 =
         Ok tt (set_stdout (stdout w2 ++ [ev]) (set_rules (rules w2 ++ [imp]) w2))) /\
  (forall env' num_customers num_employees ticks w0,
     let run := script env num_customers num_employees ticks w0 in
     let run' := script env' num_customers num_employees ticks w0 in
     succeeded run = succeeded run' /\
     final_catalog (state_of run) = final_catalog (state_of run') /\
     purchase_logs (state_of run) = purchase_logs (state_of run')).
Proof.
  intros Hraises. split; [| split].
  - rewrite add_rule_spec, Hraises. eexists. split; [reflexivity |].
    cbn. repeat split.
  - intros which2 added2 text2.
    destruct (set_as_rule_raises env text2) as [e2|] eqn:H2.
    + exists (mkImp None), (SwrlNotAdded which2 e2). split.
      * split; intros H; discriminate H.
      * intros w2. rewrite add_rule_spec, H2. reflexivity.
    + exists (mkImp (Some text2)), (Line added2). split.
      * split; reflexivity.
      * intros w2. rewrite add_rule_spec, H2. reflexivity.
  - intros env' num_customers num_employees ticks w0 run run'.
    destruct (agree_state run run') as (Hs & Hc).
    { apply related_script. reflexivity. }
    core_eq Hc. split; [exact Hs |].
    unfold final_catalog, purchase_logs. rewrite Hbooks, Hagents. split; reflexivity.
Qed.

(** C9.  When the run has reached the reasoner and [sync_reasoner] raises,
    the script still returns: the failure is printed as the last line, and
    the state, with the final catalog and the purchase logs, is the one
    that was reported before the reasoner was called. *)
Theorem reasoner_failure_is_reported (env : Env)
    (num_customers num_employees ticks : nat) (e : Exn) (w w1 : World) :
  simulate_and_report env num_customers num_employees ticks w = Ok tt w1 ->
  sync_reasoner_raises env (books w1) = Some e ->
  exists w2,
    script env num_customers num_employees ticks w = Ok tt w2 /\
    stdout w2 = stdout w1 ++ [ReasonerNotRun e] /\
    core w2 = core w1 /\
    rules w2 = rules w1 /\
    final_catalog w2 = final_catalog w1 /\
    purchase_logs w2 = purchase_logs w1.
Proof.
  intros Hsim Hraises. unfold script, bind. rewrite Hsim.
  rewrite apply_reasoner_spec, Hraises. eexists. split; [reflexivity |].
  cbn. repeat split.
Qed.


(** ** More on the acts, the ticks and the script *)

(** An act is entered in the history; then a buyer has one of its three
    outcomes and a restocker refills. *)
Lemma agent_step_cases (self : nat) (a : Agent) (w : World) :
  match kind a with
  | CustomerAgent _ =>
      CustomerAgent_outcome self (set_acted (acted w ++ [self]) w)
                            (agent_step self a w)
  | EmployeeAgent =>
      agent_step self a w =
      Ok tt (set_books (map restock (books w))
               (set_acted (acted w ++ [self]) w))
  end.
Proof.
  unfold agent_step, bind, modify. destruct (kind a).
  - apply CustomerAgent_step_outcome.
  - reflexivity.
Qed.

Lemma lookup_agent_Some (key self : nat) (a : Agent) (ags : list Agent) :
  lookup_agent key ags = Some (self, a) ->
  ags !! self = Some a /\ unique_id a = key.
Proof.
  unfold lookup_agent. intros H. apply list_find_Some in H as (H1 & H2 & _).
  split; assumption.
Qed.

Section Scheduled.

Variable I : World -> Prop.
Hypothesis I_ledger : ledger_only I.
Hypothesis I_act :
  forall self a w,
    agents w !! self = Some a -> I w -> I (state_of (agent_step self a w)).

(** An invariant of the acts of the scheduled agents is one of the tick. *)
Lemma RandomActivation_step_scheduled : invariant I RandomActivation_step.
Proof.
  unfold RandomActivation_step.
  apply invariant_bind; [apply invariant_get | intros w0]. cbv zeta.
  apply invariant_bind; [| intros _; apply invariant_bind; [| intros _]].
  - apply invariant_modify. intros v Hv.
    eapply I_ledger; [.. | exact Hv]; reflexivity.
  - apply invariant_for_each. intros key v Hv. unfold bind, get.
    destruct (lookup_agent key (agents v)) as [[self ag]|] eqn:Hfind.
    + apply lookup_agent_Some in Hfind as (Hself & _).
      apply I_act; assumption.
    + exact Hv.
  - apply invariant_modify. intros v Hv.
    eapply I_ledger; [.. | exact Hv]; reflexivity.
Qed.

Lemma run_simulation_scheduled (ticks : nat) : invariant I (run_simulation ticks).
Proof.
  unfold run_simulation. apply invariant_for_each. intros i.
  apply invariant_bind; [| intros _; apply RandomActivation_step_scheduled].
  unfold print. apply invariant_modify. intros v Hv.
  eapply I_ledger; [.. | exact Hv]; reflexivity.
Qed.

End Scheduled.

Lemma schedule_add_built (w0 : World) (a : Agent) :
  purchased_of a = [] -> invariant (built_from w0) (schedule_add a).
Proof.
  intros Ha w (Hb & Hc & He & Hp & Hh & Hlogs). unfold schedule_add.
  destruct (decide _); cbn; [repeat split; assumption |].
  repeat split; try assumption.
  apply Forall_app. split; [exact Hlogs |]. apply Forall_singleton. exact Ha.
Qed.

(** Whether the model gets built or not, its agents have bought nothing
    and the ontology is as it was. *)
Lemma BookstoreModel_init_built (num_customers num_employees : nat) (w : World) :
  built_from w (state_of (BookstoreModel_init num_customers num_employees w)).
Proof.
  unfold BookstoreModel_init.
  change (built_from w (state_of
    ((for_each (seq 0 num_customers)
        (fun i => schedule_add (mkAgent i (CustomerAgent []))) ;;
      for_each (seq 0 num_employees)
        (fun i => schedule_add (mkAgent (i + 100) EmployeeAgent)))
       (set_steps 0 (set_agents [] w))))).
  apply invariant_bind.
  - apply invariant_for_each. intros i. apply schedule_add_built. reflexivity.
  - intros _. apply invariant_for_each. intros i.
    apply schedule_add_built. reflexivity.
  - repeat split. cbn. constructor.
Qed.

Section ScheduledScript.

Variable I : World -> Prop.
Hypothesis I_ledger : ledger_only I.
Hypothesis I_act :
  forall self a w,
    agents w !! self = Some a -> I w -> I (state_of (agent_step self a w)).

(** What holds of every freshly built model and is kept by the acts of the
    scheduled agents holds when the script ends, however it ends. *)
Lemma script_scheduled (env : Env) (num_customers num_employees ticks : nat)
    (w0 : World) :
  (forall w, built_from w0 w -> I w) ->
  I (state_of (script env num_customers num_employees ticks w0)).
Proof.
  intros Hbuilt. unfold script, simulate_and_report, bind.
  destruct (add_rule_core env "purchase" "[SWRL] Purchase rule added successfully"
              rule1_text w0) as (w1 & -> & Hc1).
  destruct (add_rule_core env "restock" "[SWRL] Restock rule added successfully"
              rule2_text w1) as (w2 & -> & Hc2).
  rewrite print_spec.
  set (w3 := set_stdout _ w2).
  assert (H3 : built_from w0 (state_of
            (BookstoreModel_init num_customers num_employees w3))).
  { destruct (BookstoreModel_init_built num_customers num_employees w3)
      as (Hb & Hc & He & Hp & Hh & Hlogs).
    core_eq Hc1. core_eq Hc2. subst w3. cbn in *.
    repeat split; try assumption; congruence. }
  destruct (BookstoreModel_init num_customers num_employees w3)
    as [[] w4|e w4]; cbn in H3; [| apply Hbuilt, H3].
  assert (H5 : I (state_of (run_simulation ticks w4))).
  { apply run_simulation_scheduled; [exact I_ledger | exact I_act |].
    apply Hbuilt, H3. }
  destruct (run_simulation ticks w4) as [[] w5|e w5]; cbn in H5; [| exact H5].
  rewrite print_spec, show_results_spec, apply_reasoner_spec. cbn.
  eapply I_ledger; [.. | exact H5]; reflexivity.
Qed.

End ScheduledScript.


(** ** Purchase lists and stock under one act *)

Lemma purchased_of_record (n : string) (a : Agent) :
  purchased_of (record_purchase n a) =
  if is_customer a then purchased_of a ++ [n] else purchased_of a.
Proof.
  unfold purchased_of, record_purchase, is_customer.
  destruct (kind a) eqn:Hk; cbn; [| rewrite Hk]; reflexivity.
Qed.

Lemma purchased_of_record_prefix (n : string) (a : Agent) :
  purchased_of a `prefix_of` purchased_of (record_purchase n a).
Proof.
  rewrite purchased_of_record. destruct (is_customer a); [| reflexivity].
  apply prefix_app_r. reflexivity.
Qed.

Lemma purchased_of_record_elem (n x : string) (a : Agent) :
  x ∈ purchased_of (record_purchase n a) -> x ∈ purchased_of a \/ x = n.
Proof.
  rewrite purchased_of_record. destruct (is_customer a); [| left; assumption].
  intros H. apply elem_of_app in H as [H|H]; [left; exact H |].
  right. apply list_elem_of_singleton in H. exact H.
Qed.

Lemma purchased_of_record_length (n : string) (a : Agent) :
  length (purchased_of (record_purchase n a)) <= S (length (purchased_of a)).
Proof.
  rewrite purchased_of_record. destruct (is_customer a); [| lia].
  rewrite length_app. cbn. lia.
Qed.

Lemma lookup_alter_record (n : string) (self p : nat) (ags : list Agent) :
  alter (record_purchase n) self ags !! p =
  if decide (self = p) then record_purchase n <$> ags !! p else ags !! p.
Proof.
  rewrite list_lookup_alter. destruct (decide (self = p)) as [->|]; reflexivity.
Qed.

Lemma total_insert (bs : list Book) (i : nat) (b x : Book) :
  bs !! i = Some b ->
  (total (map availableQuantity (<[i := x]> bs)) =
   total (map availableQuantity bs) - availableQuantity b + availableQuantity x)%Z.
Proof.
  revert i. induction bs as [|y bs IH]; intros i Hb; [discriminate |].
  destruct i as [|i]; simpl in Hb.
  - injection Hb as ->. unfold total. simpl. lia.
  - specialize (IH i Hb). unfold total in *. simpl. lia.
Qed.

Lemma total_restock (bs : list Book) :
  (total (map availableQuantity (map restock bs)) =
   total (map availableQuantity bs) +
   3 * Z.of_nat (length (filter (fun b => is_low b = true) bs)))%Z.
Proof.
  induction bs as [|b bs IH]; [reflexivity |].
  rewrite filter_cons. unfold total in *. cbn [map foldr]. rewrite IH.
  unfold restock, is_low.
  destruct (availableQuantity b <? 2)%Z eqn:Hq.
  - rewrite decide_True by reflexivity. cbn [length set_availableQuantity availableQuantity].
    rewrite Nat2Z.inj_succ. lia.
  - rewrite decide_False by discriminate. lia.
Qed.

Lemma sold_alter (n : string) (ags : list Agent) (self : nat) (a : Agent) :
  ags !! self = Some a ->
  is_customer a = true ->
  length (concat (map purchased_of (alter (record_purchase n) self ags))) =
  S (length (concat (map purchased_of ags))).
Proof.
  revert self. induction ags as [|y ags IH]; intros self Ha Hc; [discriminate |].
  destruct self as [|self]; cbn in *.
  - injection Ha as ->. rewrite purchased_of_record, Hc.
    rewrite !length_app. cbn. lia.
  - rewrite !length_app. rewrite (IH self Ha Hc). lia.
Qed.

Lemma kind_is_customer (a : Agent) (p : list string) :
  kind a = CustomerAgent p -> is_customer a = true.
Proof. unfold is_customer. intros ->. reflexivity. Qed.

(** *** One act and the bound on the quantities *)

Lemma restock_at_most (B : Z) (b : Book) :
  (availableQuantity b <= Z.max 4 B)%Z ->
  (availableQuantity (restock b) <= Z.max 4 B)%Z.
Proof.
  intros H. unfold restock.
  destruct (availableQuantity b <? 2)%Z eqn:Hq; [| exact H].
  apply Z.ltb_lt in Hq. cbn. lia.
Qed.

Lemma agent_step_at_most (B : Z) (self : nat) (a : Agent) :
  invariant (quantities_at_most (Z.max 4 B)) (agent_step self a).
Proof.
  intros w Hw. pose proof (agent_step_cases self a w) as Hc.
  unfold quantities_at_most in *. destruct (kind a).
  - destruct Hc as [g i b Hb Hq|g i b Hb Hq|g]; cbn in *; try exact Hw.
    apply Forall_insert; [exact Hw |].
    pose proof (Forall_lookup_1 _ _ _ _ Hw Hb) as Hle. cbn in *. lia.
  - rewrite Hc. cbn. apply Forall_fmap. eapply Forall_impl; [exact Hw |].
    intros b Hb. apply restock_at_most, Hb.
Qed.

(** *** One act and the purchase lists *)

Lemma agent_step_logs_extend (w0 : World) (self : nat) (a : Agent) :
  invariant (logs_extend w0) (agent_step self a).
Proof.
  intros w Hw. pose proof (agent_step_cases self a w) as Hc.
  destruct (kind a).
  - destruct Hc as [g i b Hb Hq|g i b Hb Hq|g]; cbn; try exact Hw.
    intros p a0 Ha0. destruct (Hw p a0 Ha0) as (a1 & Ha1 & Hid & Hpre).
    cbn in *. rewrite lookup_alter_record, Ha1.
    destruct (decide (self = p)); [| exists a1; repeat split; assumption].
    exists (record_purchase (name b) a1). split; [reflexivity |]. split.
    + rewrite record_purchase_unique_id. exact Hid.
    + etransitivity; [exact Hpre | apply purchased_of_record_prefix].
  - rewrite Hc. exact Hw.
Qed.

Lemma agent_step_logs_in_catalog (self : nat) (a : Agent) :
  invariant logs_in_catalog (agent_step self a).
Proof.
  intros w Hw. pose proof (agent_step_cases self a w) as Hc.
  unfold logs_in_catalog in *. destruct (kind a).
  - destruct Hc as [g i b Hb Hq|g i b Hb Hq|g]; cbn in *; try exact Hw.
    intros p a1 n Ha1 Hn.
    rewrite (map_insert_same name i (decrement b) b) by (reflexivity || assumption).
    rewrite lookup_alter_record in Ha1.
    destruct (decide (self = p)); [| eapply Hw; eassumption].
    destruct (agents w !! p) as [a2|] eqn:Ha2; [| discriminate].
    cbn in Ha1. injection Ha1 as <-.
    apply purchased_of_record_elem in Hn as [Hn| ->].
    + eapply Hw; eassumption.
    + apply list_elem_of_fmap_2. eapply list_elem_of_lookup_2, Hb.
  - rewrite Hc. cbn. intros p a1 n Ha1 Hn.
    rewrite map_map. rewrite (map_ext _ name) by apply restock_name.
    eapply Hw; eassumption.
Qed.

Lemma count_occ_snoc (l : list nat) (x p : nat) :
  count_occ Nat.eq_dec (l ++ [x]) p =
  count_occ Nat.eq_dec l p + (if decide (x = p) then 1 else 0).
Proof.
  rewrite count_occ_app. cbn. destruct (Nat.eq_dec x p), (decide (x = p));
    try contradiction; reflexivity.
Qed.

Lemma agent_step_logs_within_acts (self : nat) (a : Agent) :
  invariant logs_within_acts (agent_step self a).
Proof.
  intros w Hw. pose proof (agent_step_cases self a w) as Hc.
  unfold logs_within_acts in *. destruct (kind a).
  - destruct Hc as [g i b Hb Hq|g i b Hb Hq|g]; cbn in *;
      intros p a1 Ha1; rewrite count_occ_snoc.
    + rewrite lookup_alter_record in Ha1.
      destruct (decide (self = p)).
      * destruct (agents w !! p) as [a2|] eqn:Ha2; [| discriminate].
        cbn in Ha1. injection Ha1 as <-.
        pose proof (purchased_of_record_length (name b) a2).
        pose proof (Hw p a2 Ha2). lia.
      * pose proof (Hw p a1 Ha1). lia.
    + pose proof (Hw p a1 Ha1). lia.
    + pose proof (Hw p a1 Ha1). lia.
  - rewrite Hc. cbn. intros p a1 Ha1. rewrite count_occ_snoc.
    pose proof (Hw p a1 Ha1). lia.
Qed.

(** *** One act and the accounts *)

(** A buyer that is in the schedule moves a unit from stock to sales, or
    nothing; a restocker adds three units for each low book. *)
Lemma agent_step_stock_sold (self : nat) (a : Agent) (w : World) :
  agents w !! self = Some a ->
  let w' := state_of (agent_step self a w) in
  if is_customer a
  then (stock w' + Z.of_nat (sold w') = stock w + Z.of_nat (sold w))%Z /\
       (stock w - 1 <= stock w' <= stock w)%Z
  else sold w' = sold w /\
       (stock w' = stock w +
          3 * Z.of_nat (length (filter (fun b => is_low b = true) (books w))))%Z.
Proof.
  intros Hself w'. subst w'. pose proof (agent_step_cases self a w) as Hc.
  unfold is_customer. destruct (kind a) as [p|] eqn:Hk.
  - destruct Hc as [g i b Hb Hq|g i b Hb Hq|g];
      unfold stock, sold;
      cbn [state_of books agents set_agents set_books set_rng set_acted] in *;
      try (split; lia).
    rewrite (total_insert _ i b _ Hb).
    rewrite (sold_alter _ _ self a Hself (kind_is_customer a p Hk)).
    unfold decrement. cbn [availableQuantity set_availableQuantity].
    rewrite Nat2Z.inj_succ. split; lia.
  - rewrite Hc. unfold stock, sold.
    cbn [state_of books agents set_agents set_books set_rng set_acted].
    split; [reflexivity |]. apply total_restock.
Qed.

Lemma agent_step_accounts (c : Z) (self : nat) (a : Agent) (w : World) :
  agents w !! self = Some a ->
  accounts c w -> accounts c (state_of (agent_step self a w)).
Proof.
  intros Hself (k & Hk).
  pose proof (agent_step_stock_sold self a w Hself) as H. cbv zeta in H.
  destruct (is_customer a).
  - exists k. lia.
  - destruct H as (Hsold & Hstock).
    exists (k + length (filter (fun b => is_low b = true) (books w))).
    rewrite Hsold, Hstock, Nat2Z.inj_add. lia.
Qed.


(** ** Building the model *)

Lemma BookstoreModel_init_raises (num_customers num_employees : nat) (w : World) :
  100 < num_customers -> 0 < num_employees ->
  BookstoreModel_init num_customers num_employees w =
  Raise (DuplicateAgent 100)
        (set_agents (initial_agents num_customers 0) (set_steps 0 w)).
Proof.
  intros Hc He. unfold BookstoreModel_init, bind, modify.
  rewrite (schedule_add_all (fun i => mkAgent i (CustomerAgent []))).
  - destruct num_employees as [|n]; [lia |]. cbn [seq for_each].
    unfold bind, schedule_add at 1. cbn [agents set_agents set_steps app unique_id].
    rewrite decide_True.
    + unfold initial_agents. cbn [seq map]. rewrite app_nil_r. reflexivity.
    + rewrite map_map. cbn [unique_id]. rewrite map_id. apply elem_of_seq. lia.
  - cbn. rewrite map_id. apply NoDup_seq.
Qed.

(** X1.  [BookstoreModel.__init__] gives its buyers the keys 0, 1, ... and
    its restockers the keys 100, 101, ...; the keys are pairwise distinct
    exactly when there are at most 100 buyers or no restocker.  In that case
    the model is built: the buyers in order, each with an empty purchase
    list, then the restockers, and a tick counter of 0.  Otherwise the
    buyer at position 100 and the first restocker are both given key 100. *)
Theorem BookstoreModel_init_keys (num_customers num_employees : nat) (w : World) :
  (NoDup (map unique_id (initial_agents num_customers num_employees)) <->
   num_customers <= 100 \/ num_employees = 0) /\
  (num_customers <= 100 \/ num_employees = 0 ->
   BookstoreModel_init num_customers num_employees w =
   Ok tt (set_agents (initial_agents num_customers num_employees)
            (set_steps 0 w))) /\
  (100 < num_customers /\ 0 < num_employees ->
   initial_agents num_customers num_employees !! 100 =
     Some (mkAgent 100 (CustomerAgent [])) /\
   initial_agents num_customers num_employees !! num_customers =
     Some (mkAgent 100 EmployeeAgent)).
Proof.
  split; [| split].
  - split; [| apply initial_agents_NoDup].
    intros Hnd. destruct (decide (num_customers <= 100)) as [|Hbig]; [left; assumption |].
    destruct num_employees as [|n]; [right; reflexivity |]. exfalso.
    rewrite initial_agents_ids in Hnd. apply NoDup_app in Hnd as (_ & Hdisj & _).
    apply (Hdisj 100).
    + apply elem_of_seq. lia.
    + cbn [seq map]. left.
  - apply BookstoreModel_init_spec.
  - intros (Hc & He). unfold initial_agents. split.
    + rewrite lookup_app_l by (rewrite length_map, length_seq; exact Hc).
      rewrite list_lookup_fmap, lookup_seq_lt by exact Hc. reflexivity.
    + rewrite lookup_app_r by (rewrite length_map, length_seq; lia).
      rewrite length_map, length_seq, Nat.sub_diag.
      rewrite list_lookup_fmap, lookup_seq_lt by exact He. reflexivity.
Qed.

(** A registration block always returns, with one line printed and one
    rule object more. *)
Lemma add_rule_line (env : Env) (which added text : string) (w : World) :
  add_rule env which added text w =
  Ok tt (set_stdout (stdout w ++ [rule_line env which added text])
           (set_rules (rules w ++ [rule_object env text]) w)).
Proof.
  rewrite add_rule_spec. unfold rule_line, rule_object.
  destruct (set_as_rule_raises env text); reflexivity.
Qed.

(** With more than 100 buyers and a restocker the script stops at the
    construction of the model. *)
Lemma script_raises_on_duplicate (env : Env)
    (num_customers num_employees ticks : nat) (w : World) :
  100 < num_customers -> 0 < num_employees ->
  script env num_customers num_employees ticks w =
  Raise (DuplicateAgent 100)
    (set_agents (initial_agents num_customers 0)
       (set_steps 0
          (set_stdout
             (stdout w ++
              [rule_line env "purchase" "[SWRL] Purchase rule added successfully"
                 rule1_text;
               rule_line env "restock" "[SWRL] Restock rule added successfully"
                 rule2_text;
               Line "[Setup] Starting Bookstore MAS simulation."])
             (set_rules
                (rules w ++
                 [rule_object env rule1_text; rule_object env rule2_text]) w)))).
Proof.
  intros Hc He. unfold script, simulate_and_report, bind.
  rewrite !add_rule_line, print_spec, BookstoreModel_init_raises by assumption.
  cbn. rewrite <- !app_assoc. reflexivity.
Qed.

(** ** Invariants of the stock and of the purchase lists *)

Lemma quantities_at_most_ledger (B : Z) : ledger_only (quantities_at_most B).
Proof.
  intros w w' Hb _ _ _ _ _. unfold quantities_at_most. rewrite Hb. trivial.
Qed.

Lemma logs_extend_ledger (w0 : World) : ledger_only (logs_extend w0).
Proof.
  intros w w' _ _ _ _ Ha _. unfold logs_extend. rewrite Ha. trivial.
Qed.

Lemma logs_extend_refl (w : World) : logs_extend w w.
Proof. intros p a Ha. exists a. repeat split; [exact Ha | reflexivity]. Qed.

Lemma logs_within_acts_ledger : ledger_only logs_within_acts.
Proof.
  intros w w' _ _ _ _ Ha Hh. unfold logs_within_acts. rewrite Ha, Hh. trivial.
Qed.

Lemma accounts_ledger (c : Z) : ledger_only (accounts c).
Proof.
  intros w w' Hb _ _ _ Ha _. unfold accounts, stock, sold. rewrite Hb, Ha. trivial.
Qed.

Lemma no_purchase_sold (ags : list Agent) :
  Forall (fun a => purchased_of a = []) ags ->
  length (concat (map purchased_of ags)) = 0.
Proof.
  induction 1 as [|a ags Ha _ IH]; [reflexivity |].
  cbn. rewrite Ha. exact IH.
Qed.

(** X2.  A quantity never exceeds the larger of 4 and what it was: a bound
    [max 4 B] on all quantities is kept by every act, every tick and every
    run of ticks, since a buyer only takes and a restocker refills a book
    only from below 2, by 3.  In the script, which starts from three books of
    quantity 5, no quantity is ever above 5 at the end, for any numbers of
    agents and ticks and however the script ends. *)
Theorem quantities_bounded_above (B : Z) (env : Env)
    (num_customers num_employees ticks : nat) (seed : Rng) :
  (forall self a w,
     quantities_at_most (Z.max 4 B) w ->
     quantities_at_most (Z.max 4 B) (state_of (agent_step self a w))) /\
  (forall w,
     quantities_at_most (Z.max 4 B) w ->
     quantities_at_most (Z.max 4 B) (state_of (BookstoreModel_step w))) /\
  (forall n w,
     quantities_at_most (Z.max 4 B) w ->
     quantities_at_most (Z.max 4 B) (state_of (run_simulation n w))) /\
  quantities_at_most 5
    (state_of (script env num_customers num_employees ticks (initial_world seed))).
Proof.
  split; [intros self a; apply agent_step_at_most |].
  split; [| split].
  - apply RandomActivation_step_scheduled.
    + apply quantities_at_most_ledger.
    + intros self a w _. apply agent_step_at_most.
  - intros n. apply run_simulation_scheduled.
    + apply quantities_at_most_ledger.
    + intros self a w _. apply agent_step_at_most.
  - change 5%Z with (Z.max 4 5). apply script_scheduled.
    + apply quantities_at_most_ledger.
    + intros self a w _. apply agent_step_at_most.
    + intros w (Hb & _). unfold quantities_at_most. rewrite Hb. cbn.
      repeat constructor; cbn; lia.
Qed.

Lemma restock_floor (b : Book) :
  (0 <= availableQuantity b)%Z -> (2 <= availableQuantity (restock b))%Z.
Proof.
  intros H. unfold restock.
  destruct (availableQuantity b <? 2)%Z eqn:Hq; cbn; [lia |].
  apply Z.ltb_ge in Hq. exact Hq.
Qed.

Lemma map_restock_enough (bs : list Book) :
  Forall (fun b => (2 <= availableQuantity b)%Z) bs -> map restock bs = bs.
Proof.
  induction 1 as [|b bs Hb _ IH]; [reflexivity |].
  cbn. rewrite IH, restock_enough by exact Hb. reflexivity.
Qed.

(** X3.  When no quantity is negative, a restocker's act leaves every book
    with at least 2 units, never lowers a quantity, and a second act right
    after it changes no book at all. *)
Theorem EmployeeAgent_step_floor (w : World) :
  quantities_nonneg w ->
  let w1 := state_of (EmployeeAgent_step w) in
  Forall (fun b => (2 <= availableQuantity b)%Z) (books w1) /\
  Forall2 (fun b b1 => (availableQuantity b <= availableQuantity b1)%Z)
          (books w) (books w1) /\
  books (state_of (EmployeeAgent_step w1)) = books w1.
Proof.
  intros Hw w1. subst w1. cbn.
  assert (Hfloor : Forall (fun b => (2 <= availableQuantity b)%Z)
                          (map restock (books w))).
  { apply Forall_fmap. eapply Forall_impl; [exact Hw |].
    intros b Hb. apply restock_floor, Hb. }
  split; [exact Hfloor |]. split.
  - apply Forall2_fmap_r. apply Forall_Forall2_diag.
    eapply Forall_impl; [exact Hw |]. intros b Hb. cbv beta in Hb.
    unfold compose, restock, set_availableQuantity. cbv beta.
    destruct (availableQuantity b <? 2)%Z; cbn [availableQuantity]; lia.
  - apply map_restock_enough, Hfloor.
Qed.

(** X4.  Purchase lists are append-only: after any act, any tick and any
    run of ticks, whether it returns or raises, every agent is still at its
    place in the schedule with its key, and its purchase list is the old
    one with entries added at the end. *)
Theorem purchase_lists_append_only (w : World) (self : nat) (a : Agent)
    (ticks : nat) :
  logs_extend w (state_of (agent_step self a w)) /\
  logs_extend w (state_of (BookstoreModel_step w)) /\
  logs_extend w (state_of (run_simulation ticks w)).
Proof.
  split; [| split].
  - apply agent_step_logs_extend, logs_extend_refl.
  - apply RandomActivation_step_scheduled.
    + apply logs_extend_ledger.
    + intros self' a' w' _. apply agent_step_logs_extend.
    + apply logs_extend_refl.
  - apply run_simulation_scheduled.
    + apply logs_extend_ledger.
    + intros self' a' w' _. apply agent_step_logs_extend.
    + apply logs_extend_refl.
Qed.


Lemma agent_step_names (self : nat) (a : Agent) (w : World) :
  map name (books (state_of (agent_step self a w))) = map name (books w).
Proof.
  destruct (agent_step_same_entities w self a w (same_entities_refl w))
    as (Hn & _). exact Hn.
Qed.

(** X5.  Every entry of a purchase list is the name of a book of the
    catalog: this is kept by every act, tick and run of ticks, and at the
    end of the script, however it ends, every entry of every purchase list
    is one of b1, b2 and b3. *)
Theorem purchase_lists_name_books (env : Env)
    (num_customers num_employees ticks : nat) (seed : Rng) :
  (forall self a w,
     logs_in_catalog w -> logs_in_catalog (state_of (agent_step self a w))) /\
  (forall w,
     logs_in_catalog w -> logs_in_catalog (state_of (BookstoreModel_step w))) /\
  (forall n w,
     logs_in_catalog w -> logs_in_catalog (state_of (run_simulation n w))) /\
  (let w' := state_of (script env num_customers num_employees ticks
                         (initial_world seed)) in
   forall p a n,
     agents w' !! p = Some a -> n ∈ purchased_of a -> n ∈ ["b1"; "b2"; "b3"]).
Proof.
  assert (Hledger : forall ns,
    ledger_only (fun w => logs_in_catalog w /\ map name (books w) = ns)).
  { intros ns w w' Hb _ _ _ Ha _. unfold logs_in_catalog. rewrite Hb, Ha. trivial. }
  assert (Hact : forall ns self a w,
    agents w !! self = Some a ->
    logs_in_catalog w /\ map name (books w) = ns ->
    logs_in_catalog (state_of (agent_step self a w)) /\
    map name (books (state_of (agent_step self a w))) = ns).
  { intros ns self a w _ (Hl & Hn). split.
    - apply agent_step_logs_in_catalog, Hl.
    - rewrite agent_step_names. exact Hn. }
  split; [intros self a; apply agent_step_logs_in_catalog |].
  split; [| split].
  - intros w Hw.
    apply (RandomActivation_step_scheduled _ (Hledger (map name (books w)))
             (Hact (map name (books w))) w). split; [exact Hw | reflexivity].
  - intros n w Hw.
    apply (run_simulation_scheduled _ (Hledger (map name (books w)))
             (Hact (map name (books w))) n w). split; [exact Hw | reflexivity].
  - intros w' p a n Ha Hn.
    destruct (script_scheduled _ (Hledger ["b1"; "b2"; "b3"])
                (Hact ["b1"; "b2"; "b3"]) env num_customers num_employees ticks
                (initial_world seed)) as (Hl & Hnames).
    + intros w (Hb & _ & _ & _ & _ & Hlogs). split.
      * intros q a1 n1 Ha1 Hn1.
        pose proof (Forall_lookup_1 _ _ _ _ Hlogs Ha1) as He. cbn in He.
        rewrite He in Hn1. apply elem_of_nil in Hn1. contradiction.
      * rewrite Hb. reflexivity.
    + fold w' in Hl, Hnames. rewrite <- Hnames. eapply Hl; eassumption.
Qed.

(** X6.  Units are accounted for.  An act of a scheduled buyer keeps the sum
    of the stock and of the recorded purchases, and takes at most one unit
    from the stock; an act of a restocker records nothing and adds three
    units for each book that was below 2.  So after any tick and any run the
    stock and the purchases add up to what they were plus a multiple of
    three, and at the end of the script, however it ends, to 15 plus a
    multiple of three. *)
Theorem stock_and_purchases_balance (env : Env)
    (num_customers num_employees ticks : nat) (seed : Rng) :
  (forall self a w,
     agents w !! self = Some a ->
     let w' := state_of (agent_step self a w) in
     if is_customer a
     then (stock w' + Z.of_nat (sold w') = stock w + Z.of_nat (sold w))%Z /\
          (stock w - 1 <= stock w' <= stock w)%Z
     else sold w' = sold w /\
          (stock w' = stock w +
             3 * Z.of_nat (length (filter (fun b => is_low b = true) (books w))))%Z) /\
  (forall w, exists k : nat,
     let w' := state_of (BookstoreModel_step w) in
     (stock w' + Z.of_nat (sold w') =
      stock w + Z.of_nat (sold w) + 3 * Z.of_nat k)%Z) /\
  (forall n w, exists k : nat,
     let w' := state_of (run_simulation n w) in
     (stock w' + Z.of_nat (sold w') =
      stock w + Z.of_nat (sold w) + 3 * Z.of_nat k)%Z) /\
  (exists k : nat,
     let w' := state_of (script env num_customers num_employees ticks
                           (initial_world seed)) in
     (stock w' + Z.of_nat (sold w') = 15 + 3 * Z.of_nat k)%Z).
Proof.
  split; [apply agent_step_stock_sold |].
  assert (H0 : forall w, accounts (stock w + Z.of_nat (sold w)) w).
  { intros w. exists 0. lia. }
  split; [| split].
  - intros w.
    apply (RandomActivation_step_scheduled _
             (accounts_ledger (stock w + Z.of_nat (sold w)))
             (agent_step_accounts _) w (H0 w)).
  - intros n w.
    apply (run_simulation_scheduled _
             (accounts_ledger (stock w + Z.of_nat (sold w)))
             (agent_step_accounts _) n w (H0 w)).
  - apply (script_scheduled _ (accounts_ledger 15) (agent_step_accounts 15)).
    intros w (Hb & _ & _ & _ & _ & Hlogs). exists 0.
    unfold stock, sold. rewrite Hb, (no_purchase_sold _ Hlogs). reflexivity.
Qed.

Lemma agent_step_log_growth (self : nat) (a : Agent) (w : World) (p : nat)
    (a0 : Agent) :
  agents w !! p = Some a0 ->
  exists a1,
    agents (state_of (agent_step self a w)) !! p = Some a1 /\
    length (purchased_of a0) <= length (purchased_of a1) /\
    length (purchased_of a1) <=
      length (purchased_of a0) + (if decide (self = p) then 1 else 0).
Proof.
  intros Ha0. pose proof (agent_step_cases self a w) as Hc.
  destruct (kind a).
  - destruct Hc as [g i b Hb Hq|g i b Hb Hq|g]; cbn;
      try (exists a0; split; [exact Ha0 | lia]).
    rewrite lookup_alter_record, Ha0.
    destruct (decide (self = p)); [| exists a0; split; [reflexivity | lia]].
    exists (record_purchase (name b) a0). split; [reflexivity |].
    pose proof (purchased_of_record_length (name b) a0).
    pose proof (prefix_length _ _ (purchased_of_record_prefix (name b) a0)).
    lia.
  - rewrite Hc. cbn. exists a0. split; [exact Ha0 | lia].
Qed.

(** X7.  One act records at most one purchase, and only in the list of the
    agent at the acting position; every other list is left as it is.  At the
    end of the script, however it ends, no purchase list is longer than the
    number of ticks. *)
Theorem at_most_one_purchase_per_act (env : Env)
    (num_customers num_employees ticks : nat) (seed : Rng) :
  (forall self a w p a0,
     agents w !! p = Some a0 ->
     exists a1,
       agents (state_of (agent_step self a w)) !! p = Some a1 /\
       length (purchased_of a0) <= length (purchased_of a1) /\
       length (purchased_of a1) <=
         length (purchased_of a0) + (if decide (self = p) then 1 else 0)) /\
  (let w' := state_of (script env num_customers num_employees ticks
                         (initial_world seed)) in
   forall p a, agents w' !! p = Some a -> length (purchased_of a) <= ticks).
Proof.
  split; [apply agent_step_log_growth |].
  intros w' p a Ha.
  destruct (decide (num_customers <= 100 \/ num_employees = 0)) as [Hsmall|Hbig].
  - assert (Hlogs : logs_within_acts w').
    { apply script_scheduled.
      - apply logs_within_acts_ledger.
      - intros self a' w _. apply agent_step_logs_within_acts.
      - intros w (_ & _ & _ & _ & _ & Hempty) q a1 Ha1.
        pose proof (Forall_lookup_1 _ _ _ _ Hempty Ha1) as He. cbn in He.
        rewrite He. cbn. lia. }
    destruct (simulate_and_report_returns env num_customers num_employees ticks
                (initial_world seed) Hsmall) as (w1 & Hsim & _ & Hids & Hcount).
    { discriminate. }
    assert (Hw' : w' = state_of (apply_reasoner env w1)).
    { subst w'. unfold script, bind. rewrite Hsim. reflexivity. }
    rewrite apply_reasoner_spec in Hw'. cbn in Hw'.
    pose proof (Hlogs p a Ha) as Hle. rewrite Hw' in Ha, Hle. cbn in Ha, Hle.
    rewrite Hcount in Hle; [cbn in Hle; lia |].
    apply lookup_lt_Some in Ha.
    rewrite <- (length_map unique_id), Hids, length_map in Ha.
    unfold initial_agents in Ha. rewrite length_app, !length_map, !length_seq in Ha.
    exact Ha.
  - assert (Hc : 100 < num_customers) by lia.
    assert (He : 0 < num_employees) by lia.
    subst w'. rewrite script_raises_on_duplicate in Ha by assumption.
    cbn in Ha. unfold initial_agents in Ha. cbn [seq map] in Ha.
    rewrite app_nil_r in Ha. rewrite list_lookup_fmap in Ha.
    destruct (seq 0 num_customers !! p); [| discriminate].
    cbn in Ha. injection Ha as <-. cbn. lia.
Qed.


Lemma agent_step_rules (rs : list Imp) (self : nat) (a : Agent) :
  invariant (fun w => rules w = rs) (agent_step self a).
Proof.
  intros w Hw.
  destruct (agent_step_same_entities w self a w (same_entities_refl w))
    as (_ & _ & _ & _ & _ & Hr & _). rewrite Hr. exact Hw.
Qed.

(** X8.  When the model can be built and there is a book to choose, the
    script returns, and its output is, in this order: one line for each of
    the two rule blocks, the setup line, the progress lines 1 to [ticks],
    the line that ends the simulation, the report of the final state, and
    one line for the reasoner.  The ontology then holds exactly two rule
    objects more than before, the purchase rule first, each with its text
    when the library took it and empty when it did not. *)
Theorem script_output (env : Env) (num_customers num_employees ticks : nat)
    (w : World) :
  num_customers <= 100 \/ num_employees = 0 ->
  books w <> [] ->
  exists w',
    script env num_customers num_employees ticks w = Ok tt w' /\
    rules w' =
      rules w ++ [rule_object env rule1_text; rule_object env rule2_text] /\
    stdout w' =
      stdout w ++
      [rule_line env "purchase" "[SWRL] Purchase rule added successfully"
         rule1_text;
       rule_line env "restock" "[SWRL] Restock rule added successfully"
         rule2_text;
       Line "[Setup] Starting Bookstore MAS simulation."] ++
      map (fun i => StepRunning (i + 1) ticks) (seq 0 ticks) ++
      [Line "[Model] Simulation finished."] ++
      report w' ++
      [reasoner_line env w'].
Proof.
  intros Hsmall Hne. unfold script, simulate_and_report, bind.
  rewrite !add_rule_line, print_spec, BookstoreModel_init_spec by exact Hsmall.
  match goal with |- context [run_simulation ticks ?w0] =>
    destruct (run_simulation_returns ticks w0)
      as (w3 & Hrun & _ & _ & Hout & _ & _);
    [ cbn; apply initial_agents_NoDup, Hsmall
    | cbn; exact Hne
    | pose proof (run_simulation_invariant (fun v => rules v = rules w0)
                    (agent_step_rules (rules w0)) ticks) as Hrules;
      specialize (Hrules
        ltac:(intros v v' _ _ _ _ Hr _ Hv; cbv beta; rewrite Hr; exact Hv)
        w0 eq_refl) ]
  end.
  rewrite Hrun in Hrules. cbn in Hrules, Hout.
  rewrite Hrun, print_spec, show_results_spec, apply_reasoner_spec.
  eexists. split; [reflexivity |]. cbn. split.
  - rewrite Hrules, <- app_assoc. reflexivity.
  - rewrite Hout. unfold reasoner_line, report. cbn.
    repeat (rewrite <- app_assoc || rewrite <- app_comm_cons || cbn [app]).
    reflexivity.
Qed.


(** ** The last act of a tick *)

Lemma for_each_app {A} (l1 l2 : list A) (body : A -> M unit) (w : World) :
  for_each (l1 ++ l2) body w = (for_each l1 body ;; for_each l2 body) w.
Proof.
  revert w. induction l1 as [|x l1 IH]; intros w; [reflexivity |].
  cbn [app for_each]. unfold bind in *.
  destruct (body x w) as [[] w'|e w']; [apply IH | reflexivity].
Qed.

Lemma RandomActivation_step_unfold (w : World) :
  RandomActivation_step w =
  (for_each (fst (shuffle (rng w) (map unique_id (agents w)))) activate ;;
   modify (fun w => set_steps (S (steps w)) w))
    (set_rng (snd (shuffle (rng w) (map unique_id (agents w)))) w).
Proof. reflexivity. Qed.

(** Stepping the agents of some keys of the schedule returns and keeps the
    frame of the tick. *)
Lemma activate_all_returns (w0 : World) (keys : list nat) (w : World) :
  books w0 <> [] ->
  (forall k, k ∈ keys -> k ∈ map unique_id (agents w0)) ->
  tick_frame w0 w ->
  exists w', for_each keys activate w = Ok tt w' /\ tick_frame w0 w'.
Proof.
  intros Hne Hkeys Hw.
  destruct (for_each_ok (fun _ v => tick_frame w0 v) activate keys [] w)
    as (w' & Hrun & Hw'); [| exact Hw | exists w'; split; assumption].
  intros _ key v Hkey (Hids & Hcl & Hlen & Hnn).
  assert (Hin : key ∈ map unique_id (agents v)) by (rewrite Hids; apply Hkeys, Hkey).
  destruct (lookup_agent_position (agents v) key Hin) as (a & Hfind).
  unfold activate, bind, get. rewrite Hfind.
  set (self := position_of (map unique_id (agents v)) key).
  destruct (agent_step_returns self a v) as (v' & Hstep & Hlen' & Hids' & _).
  { eapply nonempty_length; [exact Hlen | exact Hne]. }
  exists v'. split; [exact Hstep |].
  pose proof (agent_step_same_entities v self a v (same_entities_refl v)) as Hsame.
  pose proof (agent_step_nonneg self a v) as Hnn'.
  rewrite Hstep in Hsame, Hnn'. cbn in Hsame, Hnn'.
  destruct Hsame as (_ & _ & _ & _ & _ & _ & _ & Hcl').
  repeat split; try congruence. intros H0. apply Hnn', Hnn, H0.
Qed.

Lemma is_customer_false (a : Agent) :
  is_customer a = false -> kind a = EmployeeAgent.
Proof. unfold is_customer. destruct (kind a); [discriminate | reflexivity]. Qed.

(** X10.  When no quantity is negative, there is a book to choose, and the
    last key that a tick draws names a restocker, the tick returns and ends
    with at least 2 units of every book. *)
Theorem tick_ending_with_restocker (w : World) (earlier : list nat)
    (key self : nat) (a : Agent) :
  quantities_nonneg w ->
  books w <> [] ->
  fst (shuffle (rng w) (map unique_id (agents w))) = earlier ++ [key] ->
  lookup_agent key (agents w) = Some (self, a) ->
  is_customer a = false ->
  exists w',
    BookstoreModel_step w = Ok tt w' /\
    Forall (fun b => (2 <= availableQuantity b)%Z) (books w').
Proof.
  intros Hnn Hne Hkeys Hfind Hrest.
  unfold BookstoreModel_step. rewrite RandomActivation_step_unfold, Hkeys.
  set (w1 := set_rng _ w).
  assert (Hperm := shuffle_perm (rng w) (map unique_id (agents w))).
  rewrite Hkeys in Hperm.
  destruct (activate_all_returns w earlier w1 Hne) as (w2 & Hrun & Hframe).
  { intros k Hk. eapply elem_of_Permutation_proper; [exact Hperm |].
    apply elem_of_app. left. exact Hk. }
  { repeat split. intros H0. exact H0. }
  destruct Hframe as (Hids & Hcl & Hlen & Hnn2).
  assert (Hin : key ∈ map unique_id (agents w2)).
  { rewrite Hids. eapply elem_of_Permutation_proper; [exact Hperm |].
    apply elem_of_app. right. left. }
  destruct (lookup_agent_position (agents w2) key Hin) as (a2 & Hfind2).
  assert (Hin0 : key ∈ map unique_id (agents w)) by (rewrite <- Hids; exact Hin).
  destruct (lookup_agent_position (agents w) key Hin0) as (a0 & Hfind0).
  rewrite Hfind in Hfind0. injection Hfind0 as Hself Ha0. subst a0.
  rewrite Hids, <- Hself in Hfind2.
  apply lookup_agent_Some in Hfind as (Hat & _).
  pose proof Hfind2 as Hat2. apply lookup_agent_Some in Hat2 as (Hat2 & _).
  assert (Hrest2 : is_customer a2 = false).
  { assert (H : map is_customer (agents w2) !! self =
               map is_customer (agents w) !! self) by (rewrite Hcl; reflexivity).
    rewrite !list_lookup_fmap, Hat, Hat2 in H. cbn in H.
    injection H as ->. exact Hrest. }
  pose proof (agent_step_cases self a2 w2) as Hstep.
  rewrite (is_customer_false a2 Hrest2) in Hstep.
  unfold bind. rewrite for_each_app. unfold bind. rewrite Hrun.
  cbn [for_each]. unfold bind, activate at 1, bind, get. rewrite Hfind2, Hstep.
  eexists. split; [reflexivity |]. cbn.
  apply Forall_fmap. eapply Forall_impl; [exact (Hnn2 Hnn) |].
  intros b Hb. apply restock_floor, Hb.
Qed.


End Simulation.

Arguments World : clear implicits.
Arguments Res : clear implicits.
Arguments M : clear implicits.
Arguments Ok {Rng A} a w.
Arguments Raise {Rng A} e w.

(** * A sample run *)

(** A small congruential generator as the random source: [random.choice]
    takes the state modulo the length, the scheduler reverses the keys on
    even states. *)
Definition lcg_next (g : nat) : nat := (5 * g + 3) mod 16.

Definition lcg_source : RandomSource nat.
Proof.
  refine {| randbelow g n := (g mod n, lcg_next g);
            shuffle g l := (if Nat.even g then rev l else l, lcg_next g) |}.
  - intros g n Hn. cbn [fst]. apply Nat.mod_upper_bound. lia.
  - intros g l. cbn [fst].
    destruct (Nat.even g); [apply Permutation_rev | reflexivity].
Defined.

#[local] Existing Instance lcg_source.

(** The model of the script, built, before its first tick. *)
Definition sample_world : World nat :=
  set_agents (initial_agents 8 2) (initial_world 7).

(** A library that refuses every rule and has no reasoner to run. *)
Definition failing_env : Env :=
  mkEnv (fun _ => Some (LibraryError "Cannot find entity"))
        (fun _ => Some (LibraryError "Java not found")).

(** A library that accepts every rule and runs the reasoner. *)
Definition working_env : Env := mkEnv (fun _ => None) (fun _ => None).

(** A store with one customer who is logged twice for the same book. *)
Definition logged_world : World nat :=
  mkWorld initial_books ["alice"] [] [("alice", "b1"); ("alice", "b1")]
          [] [] 0 [] 7 [].

(** A store whose first book is nearly sold out. *)
Definition low_world : World nat :=
  set_books [mkBook "b1" 1 12.5; book2; book3] sample_world.

Example sample_buyer_buys :
  books (state_of (CustomerAgent_step 0 sample_world)) =
  [book1; mkBook "b2" 4 15.0; book3].
Proof. reflexivity. Qed.

Example sample_buyer_out_of_stock :
  let w := set_books [book1; mkBook "b2" 0 15.0; book3] sample_world in
  books (state_of (CustomerAgent_step 0 w)) = books w /\
  agents (state_of (CustomerAgent_step 0 w)) = agents w.
Proof. split; reflexivity. Qed.

Example sample_restock :
  books (state_of (EmployeeAgent_step low_world)) =
  [mkBook "b1" 4 12.5; book2; book3].
Proof. reflexivity. Qed.

Example sample_main_returns :
  succeeded (main working_env (initial_world 7)) = true /\
  steps (state_of (main working_env (initial_world 7))) = 15.
Proof. split; vm_compute; reflexivity. Qed.

Lemma CustomerAgent_step_spec_witness :
  books sample_world <> [] /\
  agents sample_world !! 0 = Some (mkAgent 0 (CustomerAgent [])) /\
  exists i b w',
    i < length (books sample_world) /\
    books sample_world !! i = Some b /\
    CustomerAgent_step 0 sample_world = Ok tt w'.
Proof.
  assert (H1 : books sample_world <> []) by discriminate.
  assert (H2 : agents sample_world !! 0 = Some (mkAgent 0 (CustomerAgent [])))
    by reflexivity.
  split; [exact H1 |]. split; [exact H2 |].
  destruct (CustomerAgent_step_spec 0 0 [] sample_world H1 H2)
    as (i & b & w' & _ & Hlt & Hb & Hstep & _).
  exists i, b, w'. split; [exact Hlt |]. split; [exact Hb | exact Hstep].
Defined.

Lemma EmployeeAgent_step_spec_witness :
  books low_world !! 0 = Some (mkBook "b1" 1 12.5) /\
  exists w1 w2,
    EmployeeAgent_step low_world = Ok tt w1 /\
    EmployeeAgent_step w1 = Ok tt w2 /\
    books w1 !! 0 = Some (mkBook "b1" 4 12.5) /\
    books w2 !! 0 = Some (mkBook "b1" 4 12.5).
Proof.
  assert (H : books low_world !! 0 = Some (mkBook "b1" 1 12.5)) by reflexivity.
  split; [exact H |].
  destruct (EmployeeAgent_step_spec low_world 0 (mkBook "b1" 1 12.5) H)
    as (w1 & w2 & Hs1 & Hs2 & Hlow & Hkeep).
  exists w1, w2. split; [exact Hs1 |]. split; [exact Hs2 |].
  assert (Hw1 : books w1 !! 0 = Some (mkBook "b1" 4 12.5)).
  { apply Hlow. cbn. lia. }
  split; [exact Hw1 |]. apply (Hkeep _ Hw1). cbn. lia.
Defined.

Lemma purchase_rule_cardinality_witness :
  "alice" ∈ customers logged_world /\
  books logged_world !! 0 = Some book1 /\
  log_entries "alice" "b1" logged_world = 2 /\
  books (apply_rule1 (rule1_bindings_for "alice" "b1" logged_world) logged_world)
    !! 0 = Some (mkBook "b1" 3 12.5).
Proof.
  assert (H1 : "alice" ∈ customers logged_world) by (cbn; left).
  assert (H2 : books logged_world !! 0 = Some book1) by reflexivity.
  assert (H3 : log_entries "alice" "b1" logged_world = 2) by reflexivity.
  split; [exact H1 |]. split; [exact H2 |]. split; [exact H3 |].
  destruct (purchase_rule_cardinality logged_world "alice" "b1" 0 book1
              H1 H2 eq_refl) as (_ & _ & Htwice).
  exact (Htwice H3).
Defined.

Lemma scheduler_ticks_witness :
  NoDup (map unique_id (agents sample_world)) /\
  books sample_world <> [] /\
  exists w',
    run_simulation 15 sample_world = Ok tt w' /\
    steps w' = 15 /\
    forall self, self < 10 -> count_occ Nat.eq_dec (acted w') self = 15.
Proof.
  assert (H1 : NoDup (map unique_id (agents sample_world))).
  { apply initial_agents_NoDup. left. lia. }
  assert (H2 : books sample_world <> []) by discriminate.
  split; [exact H1 |]. split; [exact H2 |].
  destruct (scheduler_ticks sample_world 15 H1 H2)
    as (_ & w' & Hrun & Hsteps & _ & Hcount).
  exists w'. split; [exact Hrun |]. split; [exact Hsteps |].
  intros self Hself. apply (Hcount self Hself).
Defined.

Lemma malformed_rule_is_not_fatal_witness :
  set_as_rule_raises failing_env rule1_text =
    Some (LibraryError "Cannot find entity") /\
  exists w',
    add_rule failing_env "purchase" "[SWRL] Purchase rule added successfully"
      rule1_text (initial_world 7) = Ok tt w' /\
    stdout w' = [SwrlNotAdded "purchase" (LibraryError "Cannot find entity")] /\
    rules w' = [mkImp None].
Proof.
  assert (H : set_as_rule_raises failing_env rule1_text =
              Some (LibraryError "Cannot find entity")) by reflexivity.
  split; [exact H |].
  destruct (malformed_rule_is_not_fatal failing_env "purchase"
              "[SWRL] Purchase rule added successfully" rule1_text
              (LibraryError "Cannot find entity") (initial_world 7) H)
    as ((w' & Hadd & Hout & Hrules & _) & _).
  exists w'. split; [exact Hadd |]. split; [exact Hout | exact Hrules].
Defined.

(** C8, on what a failed registration leaves behind: from the state where
    nothing is registered yet, registering a rule that the library refuses
    leaves the object made by [Imp()], so the set of rule objects is not
    what it was. *)
Lemma failed_registration_leaves_rule_object :
  set_as_rule_raises failing_env rule1_text =
    Some (LibraryError "Cannot find entity") /\
  rules (initial_world 7) = [] /\
  rules (state_of (add_rule failing_env "purchase"
                     "[SWRL] Purchase rule added successfully" rule1_text
                     (initial_world 7))) = [mkImp None] /\
  rules (state_of (add_rule failing_env "purchase"
                     "[SWRL] Purchase rule added successfully" rule1_text
                     (initial_world 7))) <> rules (initial_world 7).
Proof. repeat split. discriminate. Qed.

Lemma reasoner_failure_is_reported_witness :
  let w1 := state_of (simulate_and_report failing_env 8 2 15 (initial_world 7)) in
  simulate_and_report failing_env 8 2 15 (initial_world 7) = Ok tt w1 /\
  sync_reasoner_raises failing_env (books w1) =
    Some (LibraryError "Java not found") /\
  exists w2,
    main failing_env (initial_world 7) = Ok tt w2 /\
    stdout w2 = stdout w1 ++ [ReasonerNotRun (LibraryError "Java not found")] /\
    final_catalog w2 = final_catalog w1 /\
    purchase_logs w2 = purchase_logs w1.
Proof.
  intros w1.
  assert (H1 : simulate_and_report failing_env 8 2 15 (initial_world 7) = Ok tt w1)
    by (vm_compute; reflexivity).
  assert (H2 : sync_reasoner_raises failing_env (books w1) =
               Some (LibraryError "Java not found")) by reflexivity.
  split; [exact H1 |]. split; [exact H2 |].
  destruct (reasoner_failure_is_reported failing_env 8 2 15
              (LibraryError "Java not found") (initial_world 7) w1 H1 H2)
    as (w2 & Hrun & Hout & _ & _ & Hcat & Hlogs).
  exists w2. split; [exact Hrun |]. split; [exact Hout |].
  split; [exact Hcat | exact Hlogs].
Defined.

Lemma EmployeeAgent_step_floor_witness :
  quantities_nonneg low_world /\
  Forall (fun b => (2 <= availableQuantity b)%Z)
         (books (state_of (EmployeeAgent_step low_world))) /\
  books (state_of (EmployeeAgent_step (state_of (EmployeeAgent_step low_world)))) =
  books (state_of (EmployeeAgent_step low_world)).
Proof.
  assert (H : quantities_nonneg low_world).
  { unfold quantities_nonneg. cbn. repeat constructor; cbn; discriminate. }
  split; [exact H |].
  destruct (EmployeeAgent_step_floor low_world H) as (Hfloor & _ & Hsame).
  split; [exact Hfloor | exact Hsame].
Defined.

Lemma script_output_witness :
  (8 <= 100 \/ 2 = 0) /\
  books (initial_world 7) <> [] /\
  exists w',
    main working_env (initial_world 7) = Ok tt w' /\
    rules w' = [mkImp (Some rule1_text); mkImp (Some rule2_text)].
Proof.
  assert (H1 : 8 <= 100 \/ 2 = 0) by (left; repeat constructor).
  assert (H2 : books (initial_world 7) <> []) by discriminate.
  split; [exact H1 |]. split; [exact H2 |].
  destruct (script_output working_env 8 2 15 (initial_world 7) H1 H2)
    as (w' & Hrun & Hrules & Hout).
  exists w'. split; [exact Hrun | exact Hrules].
Defined.

Lemma tick_ending_with_restocker_witness :
  quantities_nonneg sample_world /\
  fst (shuffle (rng sample_world) (map unique_id (agents sample_world))) =
    [0; 1; 2; 3; 4; 5; 6; 7; 100] ++ [101] /\
  lookup_agent 101 (agents sample_world) = Some (9, mkAgent 101 EmployeeAgent) /\
  exists w',
    BookstoreModel_step sample_world = Ok tt w' /\
    Forall (fun b => (2 <= availableQuantity b)%Z) (books w').
Proof.
  assert (H1 : quantities_nonneg sample_world).
  { unfold quantities_nonneg. cbn. repeat constructor; cbn; discriminate. }
  assert (H2 : books sample_world <> []) by discriminate.
  assert (H3 : fst (shuffle (rng sample_world)
                      (map unique_id (agents sample_world))) =
               [0; 1; 2; 3; 4; 5; 6; 7; 100] ++ [101]) by reflexivity.
  assert (H4 : lookup_agent 101 (agents sample_world) =
               Some (9, mkAgent 101 EmployeeAgent)) by reflexivity.
  split; [exact H1 |]. split; [exact H3 |]. split; [exact H4 |].
  exact (tick_ending_with_restocker sample_world _ 101 9 _ H1 H2 H3 H4 eq_refl).
Defined.
